(** * Padel club planner: layout geometry and reservation conflicts

    A shallow embedding of [src/App.jsx]: the pointer-driven move and resize
    handlers of the layout editor, the element and reservation stores kept in
    the state of [PadelClubPlanner], the conflict check of the booking form
    and the availability search.

    Conventions of the embedding.
    - Millisecond timestamps ([Date.now()], [getTime()]) are integers: [Z].
      A [getTime()] that may be [NaN] is an [option Z], [None] being [NaN].
    - Pixel coordinates, sizes, the zoom factor and angles are JavaScript
      numbers; they are read as real numbers ([R]), rounding left aside.
    - A reservation stores [start] and [end] as ISO strings and every reader
      goes through [new Date(..).getTime()]; the embedding keeps the
      timestamp itself.
    - A JavaScript object with optional fields is a record whose optional
      fields are options. *)

From Stdlib Require Import ZArith List String Ascii Bool Reals Lra Lia.
Import ListNotations.

(** ** Constants *)

Definition SCALE : R := 15.
Definition COURT_WIDTH_M : R := 10.
Definition COURT_HEIGHT_M : R := 20.
Definition COURT_WIDTH_PX : R := COURT_WIDTH_M * SCALE.
Definition COURT_HEIGHT_PX : R := COURT_HEIGHT_M * SCALE.
(** Min size for zones *)
Definition MIN_SIZE_PX : R := 30.

Module COLORS.
Module turf.
Definition blue : string := "#2563EB".
Definition green : string := "#10B981".
Definition terracotta : string := "#EA580C".
Definition pink : string := "#EC4899".
End turf.
End COLORS.

(** ** Data model *)

(** The [type] tag: ['court'] or ['zone']. *)
Inductive ElementType : Set := Court | Zone.

Definition isCourt (t : ElementType) : bool :=
  match t with Court => true | Zone => false end.

(** The objects of the [elements] array.  [addCourt] builds them with
    [color] and [label] and without sizes, [addZone] with [width] and
    [height] and without [color] and [label]. *)
Module Element.
Record t : Type := make {
  id : Z;
  type : ElementType;
  x : R;
  y : R;
  rotation : R;
  color : option string;
  label : option Z;
  width : option R;
  height : option R
}.
End Element.

(** The partial object handed to [onUpdate(id, changes)]. *)
Module Changes.
Record t : Type := make {
  x : option R;
  y : option R;
  width : option R;
  height : option R
}.
End Changes.

(** The objects of the [reservations] array. *)
Module Reservation.
Record t : Type := make {
  id : Z;
  courtId : Z;
  clientName : string;
  start : Z;
  end_ : Z;
  deposit : string
}.
End Reservation.

(** The two coordinates of a pointer event that the handlers read. *)
Module PointerEvent.
Record t : Type := make { clientX : R; clientY : R }.
End PointerEvent.

(** ** JavaScript helpers *)

(** [!s] on a string: only the empty string is falsy. *)
Definition blank (s : string) : bool :=
  match s with EmptyString => true | String _ _ => false end.

(** [s.includes(sub)]. *)
Definition includes (sub s : string) : bool :=
  match String.index 0 sub s with Some _ => true | None => false end.

(** [a < b] and [a > b] on numbers that may be [NaN]: false as soon as one
    side is [NaN]. *)
Definition js_lt (a b : option Z) : bool :=
  match a, b with Some a, Some b => (a <? b)%Z | _, _ => false end.

Definition js_gt (a b : option Z) : bool :=
  match a, b with Some a, Some b => (a >? b)%Z | _, _ => false end.

(** [a + b] where [a] may be [NaN]. *)
Definition js_add (a : option Z) (b : Z) : option Z :=
  match a with Some a => Some (a + b)%Z | None => None end.

(** [{ ...el, ...changes }]. *)
Definition spread (el : Element.t) (changes : Changes.t) : Element.t :=
  {| Element.id := Element.id el;
     Element.type := Element.type el;
     Element.x := match Changes.x changes with Some v => v | None => Element.x el end;
     Element.y := match Changes.y changes with Some v => v | None => Element.y el end;
     Element.rotation := Element.rotation el;
     Element.color := Element.color el;
     Element.label := Element.label el;
     Element.width :=
       match Changes.width changes with Some v => Some v | None => Element.width el end;
     Element.height :=
       match Changes.height changes with Some v => Some v | None => Element.height el end |}.

Inductive Mode : Set := design | manage | search.

Definition isDesign (m : Mode) : bool :=
  match m with design => true | _ => false end.

(** ** Pointer gestures

    [handleDragStart] and [handleResizeStart] register an [onPointerMove]
    closure over the snapshot taken at press time.  The embedding returns
    that closure: a function from the move event to the arguments of the
    [onUpdate] call it makes. *)

Definition Listener : Type := PointerEvent.t -> Z * Changes.t.

Module PadelCourt.
Section Handlers.
Local Open Scope R_scope.

(** MANUAL DRAG LOGIC FOR COURTS.  [None]: the handler returned at
    [mode !== 'design'] and registered nothing. *)
Definition handleDragStart (mode : Mode) (data : Element.t) (zoom : R)
    (e : PointerEvent.t) : option Listener :=
  if negb (isDesign mode) then None
  else
    let startX := PointerEvent.clientX e in
    let startY := PointerEvent.clientY e in
    let initialPos := (Element.x data, Element.y data) in
    Some (fun ev =>
      let dx := (PointerEvent.clientX ev - startX) / zoom in
      let dy := (PointerEvent.clientY ev - startY) / zoom in
      (Element.id data,
       {| Changes.x := Some (fst initialPos + dx);
          Changes.y := Some (snd initialPos + dy);
          Changes.width := None;
          Changes.height := None |})).
End Handlers.
End PadelCourt.

Module GenericZone.
Section Handlers.
Local Open Scope R_scope.

Definition handleDragStart (mode : Mode) (data : Element.t) (zoom : R)
    (e : PointerEvent.t) : option Listener :=
  if negb (isDesign mode) then None
  else
    let startX := PointerEvent.clientX e in
    let startY := PointerEvent.clientY e in
    let initialPos := (Element.x data, Element.y data) in
    Some (fun ev =>
      let dx := (PointerEvent.clientX ev - startX) / zoom in
      let dy := (PointerEvent.clientY ev - startY) / zoom in
      (Element.id data,
       {| Changes.x := Some (fst initialPos + dx);
          Changes.y := Some (snd initialPos + dy);
          Changes.width := None;
          Changes.height := None |})).

(** The component is rendered for zones only, and a zone carries both
    sizes from [addZone] on (see [zones_sized] below).  On an object
    without them the arithmetic of the source runs on [undefined]; the
    embedding has no listener for that case. *)
Definition handleResizeStart (data : Element.t) (zoom : R)
    (e : PointerEvent.t) (direction : string) : option Listener :=
  match Element.width data, Element.height data with
  | Some startW, Some startH =>
    let startX := PointerEvent.clientX e in
    let startY := PointerEvent.clientY e in
    let startXPos := Element.x data in
    let startYPos := Element.y data in
    let angleRad := (Element.rotation data * PI) / 180 in
    let ux := cos angleRad in
    let uy := sin angleRad in
    let vx := - sin angleRad in
    let vy := cos angleRad in
    Some (fun moveEvent =>
      let dx := (PointerEvent.clientX moveEvent - startX) / zoom in
      let dy := (PointerEvent.clientY moveEvent - startY) / zoom in
      let localDx := dx * ux + dy * uy in
      let localDy := dx * vx + dy * vy in
      let '(newW, changeX) :=
        if includes "e" direction then
          let newW := Rmax MIN_SIZE_PX (startW + localDx) in
          (newW, (newW - startW) / 2)
        else if includes "w" direction then
          let newW := Rmax MIN_SIZE_PX (startW - localDx) in
          (newW, - (newW - startW) / 2)
        else (startW, 0) in
      let '(newH, changeY) :=
        if includes "s" direction then
          let newH := Rmax MIN_SIZE_PX (startH + localDy) in
          (newH, (newH - startH) / 2)
        else if includes "n" direction then
          let newH := Rmax MIN_SIZE_PX (startH - localDy) in
          (newH, - (newH - startH) / 2)
        else (startH, 0) in
      let worldShiftX := changeX * ux + changeY * vx in
      let worldShiftY := changeX * uy + changeY * vy in
      (Element.id data,
       {| Changes.width := Some newW;
          Changes.height := Some newH;
          Changes.x := Some (startXPos + worldShiftX);
          Changes.y := Some (startYPos + worldShiftY) |}))
  | _, _ => None
  end.

(** The eight handles the component renders, in the order of the
    source (corners, then edges). *)
Definition handles : list string :=
  ["nw"; "ne"; "sw"; "se"; "n"; "s"; "w"; "e"]%string.
End Handlers.
End GenericZone.

(** ** The booking form and the availability search *)

(** The state of the form of [ReservationModal]. *)
Module Form.
Record t : Type := make {
  name : string;
  date : string;
  startTime : string;
  duration : Z;
  deposit : string
}.
End Form.

(** The four toasts of [handleSubmit]:
    - [MsgMissingDateTime]: "Por favor completa la fecha y la hora." (error)
    - [MsgInvalidDateTime]: "La fecha u hora seleccionada no es valida." (error)
    - [MsgConflict]: "Conflicto! La cancha ya esta reservada en ese horario." (error)
    - [MsgScheduled]: "Reserva agendada correctamente" (success). *)
Inductive Message : Set :=
  MsgMissingDateTime | MsgInvalidDateTime | MsgConflict | MsgScheduled.

(** What a run of [handleSubmit] does: an error toast and an early return,
    or the call [onSave(r)] followed by the success toast and [onClose()]. *)
Inductive Outcome : Type :=
| Rejected (m : Message)
| Saved (r : Reservation.t).

(** The failure kinds of the specification, and the toast each one is
    shown as. *)
Inductive ErrorKind : Set := InvalidInterval | InvalidInput | Conflict | NotFound.

Definition errorKind (o : Outcome) : option ErrorKind :=
  match o with
  | Rejected MsgMissingDateTime => Some InvalidInput
  | Rejected MsgInvalidDateTime => Some InvalidInput
  | Rejected MsgConflict => Some Conflict
  | Rejected MsgScheduled => None
  | Saved _ => None
  end.

Section Planner.
(** [new Date(s).getTime()] for a date-time string [s], in the time zone
    of the browser; [None] is [NaN] (Invalid Date). *)
Variable DateParse : string -> option Z.

Local Open Scope string_scope.
Local Open Scope list_scope.
Local Open Scope Z_scope.


(** [ReservationModal.handleSubmit], with the component's props [court]
    and [existingReservations], its form state and the clock reading
    [Date.now()] of the call. *)
Definition handleSubmit (court : Element.t)
    (existingReservations : list Reservation.t) (f : Form.t) (now : Z) : Outcome :=
  if blank (Form.date f) || blank (Form.startTime f) then
    Rejected MsgMissingDateTime
  else
    match DateParse (Form.date f ++ "T" ++ Form.startTime f)%string with
    | None => Rejected MsgInvalidDateTime
    | Some startDateTime =>
      let endDateTime := startDateTime + Form.duration f * 60000 in
      let hasOverlap :=
        existsb (fun res =>
          let rStart := Reservation.start res in
          let rEnd := Reservation.end_ res in
          let nStart := startDateTime in
          let nEnd := endDateTime in
          (nStart <? rEnd) && (nEnd >? rStart)) existingReservations in
      if hasOverlap then Rejected MsgConflict
      else
        Saved {| Reservation.id := now;
                 Reservation.courtId := Element.id court;
                 Reservation.clientName := Form.name f;
                 Reservation.start := startDateTime;
                 Reservation.end_ := endDateTime;
                 Reservation.deposit :=
                   if blank (Form.deposit f) then "0" else Form.deposit f |}
    end.

(** The form element: the inputs of the name, the date and the start time
    carry [required], so the browser dispatches the submit event, and
    with it [handleSubmit], only when none of the three is empty.
    [None]: submission blocked by the browser. *)
Definition formSubmit (court : Element.t)
    (existingReservations : list Reservation.t) (f : Form.t) (now : Z)
    : option Outcome :=
  if blank (Form.name f) || blank (Form.date f) || blank (Form.startTime f)
  then None
  else Some (handleSubmit court existingReservations f now).

(** [AvailabilityView.getAvailableCourts], with the props [elements] and
    [reservations] and the three search fields. *)
Definition getAvailableCourts (elements : list Element.t)
    (reservations : list Reservation.t) (searchDate searchTime : string)
    (duration : Z) : list Element.t :=
  let courts := filter (fun el => isCourt (Element.type el)) elements in
  if blank searchDate || blank searchTime then []
  else
    let searchStart := DateParse (searchDate ++ "T" ++ searchTime)%string in
    let searchEnd := js_add searchStart (duration * 60000) in
    filter (fun court =>
      (* Find any overlap *)
      let hasConflict :=
        existsb (fun res =>
          if negb (Reservation.courtId res =? Element.id court) then false
          else
            let resStart := Some (Reservation.start res) in
            let resEnd := Some (Reservation.end_ res) in
            (* Simple overlap logic: (StartA < EndB) and (EndA > StartB) *)
            js_lt searchStart resEnd && js_gt searchEnd resStart) reservations in
      negb hasConflict) courts.

(** ** The state of [PadelClubPlanner] and its handlers *)

(** The state variables the handlers below read or write.  The toast, the
    view date and the confirmation dialog are presentation state and are
    left out; [pointerListener] is the [pointermove] listener currently
    registered on [window]. *)
Record AppState : Type := makeState {
  elements : list Element.t;
  reservations : list Reservation.t;
  mode : Mode;
  zoom : R;
  containerSize : R * R;
  selectedId : option Z;
  managingState : option Element.t;
  pointerListener : option Listener
}.

Definition setElements (els : list Element.t) (st : AppState) : AppState :=
  {| elements := els; reservations := reservations st; mode := mode st;
     zoom := zoom st; containerSize := containerSize st;
     selectedId := selectedId st; managingState := managingState st;
     pointerListener := pointerListener st |}.

Definition setReservations (rs : list Reservation.t) (st : AppState) : AppState :=
  {| elements := elements st; reservations := rs; mode := mode st;
     zoom := zoom st; containerSize := containerSize st;
     selectedId := selectedId st; managingState := managingState st;
     pointerListener := pointerListener st |}.

Definition setMode (m : Mode) (st : AppState) : AppState :=
  {| elements := elements st; reservations := reservations st; mode := m;
     zoom := zoom st; containerSize := containerSize st;
     selectedId := selectedId st; managingState := managingState st;
     pointerListener := pointerListener st |}.

Definition setZoom (z : R) (st : AppState) : AppState :=
  {| elements := elements st; reservations := reservations st; mode := mode st;
     zoom := z; containerSize := containerSize st;
     selectedId := selectedId st; managingState := managingState st;
     pointerListener := pointerListener st |}.

Definition setSelectedId (s : option Z) (st : AppState) : AppState :=
  {| elements := elements st; reservations := reservations st; mode := mode st;
     zoom := zoom st; containerSize := containerSize st;
     selectedId := s; managingState := managingState st;
     pointerListener := pointerListener st |}.

Definition setManagingState (m : option Element.t) (st : AppState) : AppState :=
  {| elements := elements st; reservations := reservations st; mode := mode st;
     zoom := zoom st; containerSize := containerSize st;
     selectedId := selectedId st; managingState := m;
     pointerListener := pointerListener st |}.

Definition setPointerListener (l : option Listener) (st : AppState) : AppState :=
  {| elements := elements st; reservations := reservations st; mode := mode st;
     zoom := zoom st; containerSize := containerSize st;
     selectedId := selectedId st; managingState := managingState st;
     pointerListener := l |}.

(** The state after mount: empty stores, design mode, zoom 1, and the
    measured size [(w, h)] of the container. *)
Definition initialState (w h : R) : AppState :=
  {| elements := []; reservations := []; mode := design; zoom := 1%R;
     containerSize := (w, h); selectedId := None; managingState := None;
     pointerListener := None |}.

Definition updateElement (id : Z) (changes : Changes.t) (st : AppState) : AppState :=
  setElements
    (map (fun el => if Element.id el =? id then spread el changes else el)
         (elements st)) st.

(** [now] is the reading of [Date.now()], [rnd1] and [rnd2] the two
    draws of [Math.random()]. *)
Definition addCourt (color : string) (now : Z) (rnd1 rnd2 : R) (st : AppState)
    : AppState :=
  let newCourt :=
    {| Element.id := now;
       Element.type := Court;
       Element.x := (fst (containerSize st) / 2 - COURT_WIDTH_PX / 2
                     + (rnd1 * 40 - 20))%R;
       Element.y := (snd (containerSize st) / 2 - COURT_HEIGHT_PX / 2
                     + (rnd2 * 40 - 20))%R;
       Element.rotation := 0%R;
       Element.color := Some color;
       Element.label :=
         Some (Z.of_nat (List.length (filter (fun e => isCourt (Element.type e))
                                             (elements st))) + 1);
       Element.width := None;
       Element.height := None |} in
  setElements (elements st ++ [newCourt]) st.

Definition addZone (now : Z) (st : AppState) : AppState :=
  let newZone :=
    {| Element.id := now;
       Element.type := Zone;
       Element.x := (fst (containerSize st) / 2 - 50)%R;
       Element.y := (snd (containerSize st) / 2 - 25)%R;
       Element.rotation := 0%R;
       Element.color := None;
       Element.label := None;
       Element.width := Some (10 * SCALE)%R;
       Element.height := Some (5 * SCALE)%R |} in
  setElements (elements st ++ [newZone]) st.

Definition rotated (el : Element.t) : Element.t :=
  {| Element.id := Element.id el;
     Element.type := Element.type el;
     Element.x := Element.x el;
     Element.y := Element.y el;
     Element.rotation :=
       if Req_dec_T (Element.rotation el) 0 then 90%R else 0%R;
     Element.color := Element.color el;
     Element.label := Element.label el;
     Element.width := Element.width el;
     Element.height := Element.height el |}.

Definition rotateElement (id : Z) (st : AppState) : AppState :=
  setElements
    (map (fun el => if Element.id el =? id then rotated el else el)
         (elements st)) st.

Definition deleteElement (id : Z) (st : AppState) : AppState :=
  setSelectedId None
    (setElements
       (filter (fun el => negb (Element.id el =? id)) (elements st)) st).

Definition handleSaveReservation (newRes : Reservation.t) (st : AppState)
    : AppState :=
  setReservations (reservations st ++ [newRes]) st.

(** The [onConfirm] callback that [handleDeleteReservation] installs in
    the confirmation dialog. *)
Definition handleDeleteReservation (resId : Z) (st : AppState) : AppState :=
  setReservations
    (filter (fun r => negb (Reservation.id r =? resId)) (reservations st)) st.

Definition zoomIn (st : AppState) : AppState :=
  setZoom (Rmin (zoom st + 0.1) 3)%R st.
Definition zoomOut (st : AppState) : AppState :=
  setZoom (Rmax (zoom st - 0.1) 0.5)%R st.
Definition resetZoom (st : AppState) : AppState := setZoom 1%R st.

(** Submitting the form of the modal opened on [managingState.court]:
    the modal receives the reservations of that court, and an accepted
    submission runs [onSave] then [onClose]. *)
Definition submitReservation (f : Form.t) (now : Z) (st : AppState) : AppState :=
  match managingState st with
  | None => st
  | Some court =>
    let existingReservations :=
      filter (fun r => Reservation.courtId r =? Element.id court)
             (reservations st) in
    match formSubmit court existingReservations f now with
    | Some (Saved newRes) =>
      setManagingState None (handleSaveReservation newRes st)
    | _ => st
    end
  end.
End Planner.

(** ** Events and runs of the application *)

(** The user actions that reach the handlers above.  A creation carries the
    clock reading, and [AddCourt] the two random draws, that the handler
    obtains from the environment. *)
Inductive Event : Type :=
| AddCourt (color : string) (now : Z) (rnd1 rnd2 : R)
| AddZone (now : Z)
| ClearLayout
| Rotate (id : Z)
| Delete (id : Z)
| CourtPointerDown (data : Element.t) (e : PointerEvent.t)
| ZonePointerDown (data : Element.t) (e : PointerEvent.t)
| HandlePointerDown (data : Element.t) (e : PointerEvent.t) (direction : string)
| PointerMove (ev : PointerEvent.t)
| PointerUp
| ZoomIn
| ZoomOut
| ResetZoom
| SwitchMode (m : Mode)
| BackgroundClick
| OpenModal (court : Element.t)
| CloseModal
| SubmitForm (f : Form.t) (now : Z)
| ConfirmCancel (resId : Z).

Section Events.
Variable DateParse : string -> option Z.

(** The state after the handler of an event has run. *)
Definition dispatch (st : AppState) (ev : Event) : AppState :=
  match ev with
  | AddCourt color now rnd1 rnd2 => addCourt color now rnd1 rnd2 st
  | AddZone now => addZone now st
  | ClearLayout => setElements [] st
  | Rotate id => rotateElement id st
  | Delete id => deleteElement id st
  | CourtPointerDown data e =>
    match PadelCourt.handleDragStart (mode st) data (zoom st) e with
    | Some l =>
      setPointerListener (Some l) (setSelectedId (Some (Element.id data)) st)
    | None => st
    end
  | ZonePointerDown data e =>
    match GenericZone.handleDragStart (mode st) data (zoom st) e with
    | Some l =>
      setPointerListener (Some l) (setSelectedId (Some (Element.id data)) st)
    | None => st
    end
  | HandlePointerDown data e direction =>
    match GenericZone.handleResizeStart data (zoom st) e direction with
    | Some l => setPointerListener (Some l) st
    | None => st
    end
  | PointerMove ev =>
    match pointerListener st with
    | Some l => let '(id, changes) := l ev in updateElement id changes st
    | None => st
    end
  | PointerUp => setPointerListener None st
  | ZoomIn => zoomIn st
  | ZoomOut => zoomOut st
  | ResetZoom => resetZoom st
  | SwitchMode m => setMode m st
  | BackgroundClick => setSelectedId None st
  | OpenModal c => setManagingState (Some c) st
  | CloseModal => setManagingState None st
  | SubmitForm f now => submitReservation DateParse f now st
  | ConfirmCancel resId => handleDeleteReservation resId st
  end.

(** When the interface offers an event: the toolbar and the resize
    handles exist in design mode only, the handles and the rotate and
    delete buttons on the selected element only, the canvas and the zoom
    buttons outside the search view, a court opens its modal from the
    manage and search views, and the form and the reservation list live
    in the open modal. *)
Definition enabled (st : AppState) (ev : Event) : Prop :=
  match ev with
  | AddCourt _ _ rnd1 rnd2 =>
    mode st = design /\ (0 <= rnd1 < 1)%R /\ (0 <= rnd2 < 1)%R
  | AddZone _ => mode st = design
  | ClearLayout => mode st = design
  | Rotate id | Delete id =>
    mode st = design /\ selectedId st = Some id /\
    exists el, In el (elements st) /\ Element.id el = id
  | CourtPointerDown data _ =>
    In data (elements st) /\ Element.type data = Court /\ mode st <> search
  | ZonePointerDown data _ =>
    In data (elements st) /\ Element.type data = Zone /\ mode st <> search
  | HandlePointerDown data _ direction =>
    In data (elements st) /\ Element.type data = Zone /\ mode st = design /\
    selectedId st = Some (Element.id data) /\ In direction GenericZone.handles
  | PointerMove _ | PointerUp | SwitchMode _ | BackgroundClick => True
  | ZoomIn | ZoomOut | ResetZoom => mode st <> search
  | OpenModal c =>
    In c (elements st) /\ Element.type c = Court /\ mode st <> design
  | CloseModal | SubmitForm _ _ => managingState st <> None
  | ConfirmCancel resId =>
    managingState st <> None /\
    exists r, In r (reservations st) /\ Reservation.id r = resId
  end.

(** [run w h evs st]: from the state after mount in a container of size
    [(w, h)], the events [evs], each offered when it happens, lead to
    [st]. *)
Inductive run (w h : R) : list Event -> AppState -> Prop :=
| run_nil : run w h [] (initialState w h)
| run_snoc evs st ev :
    run w h evs st -> enabled st ev -> run w h (evs ++ [ev]) (dispatch st ev).

Definition reachable (st : AppState) : Prop :=
  exists w h evs, run w h evs st.
End Events.

(** The clock readings of the element creations, and of the form
    submissions, of a list of events. *)
Definition creationStamps (evs : list Event) : list Z :=
  flat_map (fun ev =>
    match ev with
    | AddCourt _ now _ _ => [now]
    | AddZone now => [now]
    | _ => []
    end) evs.

Definition submissionStamps (evs : list Event) : list Z :=
  flat_map (fun ev =>
    match ev with SubmitForm _ now => [now] | _ => [] end) evs.

(** ** Reading the data *)

(** The body frame of an element turned by [rotation] degrees: its width
    axis is [u = (cos t, sin t)] and its height axis [v = (- sin t, cos t)],
    for [t] the rotation in radians.  [alongU] and [alongV] are the
    coordinates of a point, or of a displacement, [(x, y)] along the two
    axes. *)
Module Rect.
Section Frame.
Local Open Scope R_scope.
Variables (rotation x y : R).

Definition angleRad : R := (rotation * PI) / 180.
Definition alongU : R := x * cos angleRad + y * sin angleRad.
Definition alongV : R := x * (- sin angleRad) + y * cos angleRad.
End Frame.
End Rect.

(** The box of a zone as [GenericZone] lays it out: a [motion.div] of class
    [absolute top-0 left-0] animated to [x], [y], [width], [height] and
    [rotate].  Before it is turned, the box of size [(w, h)] has its upper
    left corner at [(x, y)]; it is turned by [rotation] degrees about its
    own centre [(x + w/2, y + h/2)].  An edge is located by its coordinate
    along the axis of the box that it is perpendicular to. *)
Module Rendered.
Section Box.
Local Open Scope R_scope.
Variables (rotation x y w h : R).

Definition centreX : R := x + w / 2.
Definition centreY : R := y + h / 2.
Definition westEdge : R := Rect.alongU rotation centreX centreY - w / 2.
Definition eastEdge : R := Rect.alongU rotation centreX centreY + w / 2.
Definition northEdge : R := Rect.alongV rotation centreX centreY - h / 2.
Definition southEdge : R := Rect.alongV rotation centreX centreY + h / 2.
End Box.
End Rendered.

(** [Number(s)] on the strings a numeric input yields, restricted to
    integers: the empty string is [0], an optional minus sign and decimal
    digits are the integer they write. [None]: outside that fragment. *)
Definition digitOf (c : ascii) : option Z :=
  let n := Z.of_nat (nat_of_ascii c) in
  if ((48 <=? n) && (n <=? 57))%Z then Some (n - 48)%Z else None.

Fixpoint digitsValue (acc : Z) (s : string) : option Z :=
  match s with
  | EmptyString => Some acc
  | String c rest =>
    match digitOf c with
    | Some d => digitsValue (10 * acc + d)%Z rest
    | None => None
    end
  end.

Definition toNumber (s : string) : option Z :=
  match s with
  | EmptyString => Some 0%Z
  | String c rest =>
    if Ascii.eqb c "-" then
      if blank rest then None else option_map Z.opp (digitsValue 0 rest)
    else digitsValue 0 s
  end.

(** An instance of [DateParse] for the examples: the date-times
    [1970-01-01THH:MM] read in a UTC time zone. *)
Definition epochDayParse (s : string) : option Z :=
  if negb (String.eqb (substring 0 11 s) "1970-01-01T") then None
  else if negb (Nat.eqb (String.length s) 16) then None
  else if negb (String.eqb (substring 13 1 s) ":") then None
  else
    match digitsValue 0 (substring 11 2 s), digitsValue 0 (substring 14 2 s) with
    | Some hh, Some mm =>
      if ((hh <? 24) && (mm <? 60))%Z then Some ((hh * 60 + mm) * 60000)%Z
      else None
    | _, _ => None
    end.

(** ** Sample data for the examples *)

(** A court as [addCourt] builds it in a container of 800 by 600 when both
    random draws are one half, labelled [label], created at time [id]. *)
Definition sampleCourt (id label : Z) : Element.t :=
  {| Element.id := id; Element.type := Court;
     Element.x := 325; Element.y := 150; Element.rotation := 0;
     Element.color := Some COLORS.turf.blue; Element.label := Some label;
     Element.width := None; Element.height := None |}.

(** A zone as [addZone] builds it in a container of 800 by 600. *)
Definition sampleZone (id : Z) : Element.t :=
  {| Element.id := id; Element.type := Zone;
     Element.x := 350; Element.y := 275; Element.rotation := 0;
     Element.color := None; Element.label := None;
     Element.width := Some 150%R; Element.height := Some 75%R |}.

(** A booking of court [courtId] from [hh1:mm1] to [hh2:mm2] on the day of
    [epochDayParse]. *)
Definition sampleBooking (id courtId hh1 mm1 hh2 mm2 : Z) : Reservation.t :=
  {| Reservation.id := id; Reservation.courtId := courtId;
     Reservation.clientName := "Ana";
     Reservation.start := ((hh1 * 60 + mm1) * 60000)%Z;
     Reservation.end_ := ((hh2 * 60 + mm2) * 60000)%Z;
     Reservation.deposit := "0" |}.

Definition sampleForm (name startTime : string) (duration : Z) (deposit : string)
    : Form.t :=
  {| Form.name := name; Form.date := "1970-01-01"; Form.startTime := startTime;
     Form.duration := duration; Form.deposit := deposit |}.

(** The application in manage mode with the modal open on [sampleCourt 1 1],
    whose only booking runs from 10:00 to 11:00. *)
Definition sampleManaging : AppState :=
  {| elements := [sampleCourt 1 1];
     reservations := [sampleBooking 7 1 10 0 11 0];
     mode := manage; zoom := 1%R; containerSize := (800%R, 600%R);
     selectedId := None; managingState := Some (sampleCourt 1 1);
     pointerListener := None |}.

(** A layout of two courts around a zone, and one booking of the first
    court from 14:00 to 15:30. *)
Definition sampleLayout : list Element.t :=
  [sampleCourt 1 1; sampleZone 2; sampleCourt 3 2].

Definition sampleBookings : list Reservation.t :=
  [sampleBooking 7 1 14 0 15 30].

(** [data] with its rotation set to [r]. *)
Definition withRotation (r : R) (data : Element.t) : Element.t :=
  {| Element.id := Element.id data; Element.type := Element.type data;
     Element.x := Element.x data; Element.y := Element.y data;
     Element.rotation := r;
     Element.color := Element.color data; Element.label := Element.label data;
     Element.width := Element.width data; Element.height := Element.height data |}.

(** An element that carries both sizes, each at least [MIN_SIZE_PX]. *)
Definition sized (el : Element.t) : Prop :=
  exists w h, Element.width el = Some w /\ Element.height el = Some h /\
              (MIN_SIZE_PX <= w)%R /\ (MIN_SIZE_PX <= h)%R.

(** Changes that set no size below [MIN_SIZE_PX]. *)
Definition keepsMinSize (changes : Changes.t) : Prop :=
  (forall w, Changes.width changes = Some w -> (MIN_SIZE_PX <= w)%R) /\
  (forall h, Changes.height changes = Some h -> (MIN_SIZE_PX <= h)%R).

(** The invariant of the layout editor: zones are sized, the registered
    listener keeps the minimum size, and the zoom stays within its
    bounds. *)
Definition layoutInvariant (st : AppState) : Prop :=
  (forall el, In el (elements st) -> Element.type el = Zone -> sized el) /\
  (forall l, pointerListener st = Some l -> forall ev, keepsMinSize (snd (l ev))) /\
  (1 / 2 <= zoom st <= 3)%R.

(** The events of a list are offered one after the other from [st]. *)
Fixpoint allEnabled (DateParse : string -> option Z) (st : AppState)
    (evs : list Event) : Prop :=
  match evs with
  | [] => True
  | ev :: rest => enabled st ev /\ allEnabled DateParse (dispatch DateParse st ev) rest
  end.

(** The court that [AddCourt] builds at time 1 in a container of 800 by 600
    when both draws are one half. *)
Definition sampleRunCourt : Element.t :=
  hd (sampleCourt 1 1)
     (elements (addCourt COLORS.turf.blue 1 (1 / 2) (1 / 2) (initialState 800 600))).

(** A session: one court is added, the manage view is opened, the court is
    clicked and the form is submitted at time 8 for the slot from 11:00 to
    12:00 on the day of [epochDayParse], with the given client name and
    deposit. *)
Definition sampleSession (name deposit : string) : list Event :=
  [AddCourt COLORS.turf.blue 1 (1 / 2) (1 / 2);
   SwitchMode manage;
   OpenModal sampleRunCourt;
   SubmitForm (sampleForm name "11:00" 60 deposit) 8].

Definition afterSession (evs : list Event) : AppState :=
  fold_left (dispatch epochDayParse) evs (initialState 800 600).

(** Three courts added at times 1, 2 and 3. *)
Definition sampleLabelling : list Event :=
  [AddCourt COLORS.turf.blue 1 (1 / 2) (1 / 2);
   AddCourt COLORS.turf.green 2 (1 / 2) (1 / 2);
   AddCourt COLORS.turf.blue 3 (1 / 2) (1 / 2)].

(** An element and a zone created at the same clock reading. *)
Definition sampleCollision : list Event :=
  [AddCourt COLORS.turf.blue 1000 (1 / 2) (1 / 2); AddZone 1000].

(** [sampleSession] followed by a second booking of the same court, for
    the slot from 12:00 to 13:00, submitted at the same clock reading. *)
Definition sampleDoubleSubmission : list Event :=
  sampleSession "Eva" "" ++
  [OpenModal sampleRunCourt; SubmitForm (sampleForm "Luz" "12:00" 60 "") 8].

(** ** Statements

    The reservation that [handleSubmit] hands to [onSave] when the form [f]
    is accepted with the start [nStart]. *)
Definition newReservation (court : Element.t) (f : Form.t) (now nStart : Z)
    : Reservation.t :=
  {| Reservation.id := now;
     Reservation.courtId := Element.id court;
     Reservation.clientName := Form.name f;
     Reservation.start := nStart;
     Reservation.end_ := (nStart + Form.duration f * 60000)%Z;
     Reservation.deposit :=
       if blank (Form.deposit f) then "0"%string else Form.deposit f |}.

(** The overlap predicate in the words of the specification: the intervals
    [[s1,e1)] and [[s2,e2)] overlap iff [s1 < e2] and [e1 > s2]. *)
Definition overlap (s1 e1 s2 e2 : Z) : Prop := (s1 < e2 /\ e1 > s2)%Z.

(** ** The court status and more statements *)

(** [a >= b] on numbers that may be [NaN]. *)
Definition js_ge (a b : option Z) : bool :=
  match a, b with Some a, Some b => (a >=? b)%Z | _, _ => false end.

(** [getCourtStatus], the helper that the canvas calls for every court:
    the first reservation of the court whose interval holds the view time.
    [viewDate] stands for [new Date(viewDate).getTime()], [None] when the
    view date is invalid; [None] as a result is [undefined]. *)
Definition getCourtStatus (courtId : Z) (reservations : list Reservation.t)
    (viewDate : option Z) : option Reservation.t :=
  let viewTime := viewDate in
  find (fun res =>
    let start := Some (Reservation.start res) in
    let end_ := Some (Reservation.end_ res) in
    (Reservation.courtId res =? courtId)%Z &&
    js_ge viewTime start && js_lt viewTime end_) reservations.

(** The instant [t] lies in the interval of [r]. *)
Definition activeAt (r : Reservation.t) (t : Z) : Prop :=
  (Reservation.start r <= t < Reservation.end_ r)%Z.

(** Two reservations that book the same court at overlapping times. *)
Definition clash (a b : Reservation.t) : Prop :=
  Reservation.courtId a = Reservation.courtId b /\
  overlap (Reservation.start a) (Reservation.end_ a)
          (Reservation.start b) (Reservation.end_ b).

(** A store in which no two entries clash. *)
Definition disjointBookings (rs : list Reservation.t) : Prop :=
  ForallOrdPairs (fun a b => ~ clash a b) rs.

(** The durations that the two duration selects offer, in minutes. *)
Definition offeredDurations : list Z := [60; 90; 120]%Z.

(** Every form submitted in [evs] carries an offered duration. *)
Definition offeredSubmissions (evs : list Event) : Prop :=
  Forall (fun ev =>
    match ev with
    | SubmitForm f _ => In (Form.duration f) offeredDurations
    | _ => True
    end) evs.

(** No element is deleted in [evs]. *)
Definition withoutDeletion (evs : list Event) : Prop :=
  Forall (fun ev => match ev with Delete _ => False | _ => True end) evs.

(** The fields that [changes] sets are set by [changes'] too. *)
Definition coveredBy (changes changes' : Changes.t) : Prop :=
  (Changes.x changes <> None -> Changes.x changes' <> None) /\
  (Changes.y changes <> None -> Changes.y changes' <> None) /\
  (Changes.width changes <> None -> Changes.width changes' <> None) /\
  (Changes.height changes <> None -> Changes.height changes' <> None).

(** A listener that always updates the same element and the same fields. *)
Definition steady (l : Listener) : Prop :=
  forall ev ev', fst (l ev) = fst (l ev') /\ coveredBy (snd (l ev)) (snd (l ev')).

(** A court as [addCourt] leaves it: coloured and labelled from 1 up. *)
Definition labelled (el : Element.t) : Prop :=
  Element.color el <> None /\
  exists n, Element.label el = Some n /\ (1 <= n)%Z.

(** The two rotations of the toggle. *)
Definition quarterTurned (el : Element.t) : Prop :=
  Element.rotation el = 0%R \/ Element.rotation el = 90%R.

(** The form that books the slot from 10:00 to 11:00 of [sampleBooking]
    again. *)
Definition sampleRebooking : Form.t := sampleForm "Luz" "10:00" 60 "".

(** A design session in a container of 800 by 600: a court and a zone are
    added, the zone is pressed, dragged and released, then rotated, and the
    view is zoomed in. *)
Definition sampleDesignZone : Element.t :=
  nth 1 (elements (addZone 2 (addCourt COLORS.turf.blue 1 (1 / 2) (1 / 2)
                                       (initialState 800 600))))
        (sampleZone 2).

Definition sampleDesign : list Event :=
  [AddCourt COLORS.turf.blue 1 (1 / 2) (1 / 2);
   AddZone 2;
   ZonePointerDown sampleDesignZone (PointerEvent.make 0 0);
   PointerMove (PointerEvent.make 30 10);
   PointerUp;
   Rotate 2;
   ZoomIn].

(** The failure kind of a submission of the form.  A submission that the
    browser holds back because a required field is empty never reaches
    [handleSubmit] and commits nothing: it is the [InvalidInput] of the
    specification (a missing required field).  Otherwise the kind is that
    of the outcome of [handleSubmit]. *)
Definition submissionErrorKind (o : option Outcome) : option ErrorKind :=
  match o with
  | None => Some InvalidInput
  | Some o => errorKind o
  end.

(** A longer session: the three courts of [sampleLabelling], a zone added
    at time 4, and two bookings of the first court, submitted at times 8
    and 9. *)
Definition sampleBusy : list Event :=
  sampleLabelling ++
  [AddZone 4;
   SwitchMode manage;
   OpenModal sampleRunCourt;
   SubmitForm (sampleForm "Eva" "11:00" 60 "") 8;
   OpenModal sampleRunCourt;
   SubmitForm (sampleForm "Luz" "12:00" 60 "") 9].

(** A press adds its [onPointerMove] to the [pointermove] listeners of
    [window], and a release removes it.  On a move the registered listeners
    run in the order of their registration; each one calls [onUpdate], and
    the functional updates of [setElements] apply one after the other. *)
Definition runListeners (listeners : list Listener) (ev : PointerEvent.t)
    (els : list Element.t) : list Element.t :=
  fold_left
    (fun els l =>
       let '(id, changes) := l ev in
       map (fun el => if (Element.id el =? id)%Z then spread el changes else el)
           els)
    listeners els.

(** The listeners that the three press handlers register. *)
Definition registered (l : Listener) : Prop :=
  (exists m data z e, PadelCourt.handleDragStart m data z e = Some l) \/
  (exists m data z e, GenericZone.handleDragStart m data z e = Some l) \/
  (exists data z e direction,
     GenericZone.handleResizeStart data z e direction = Some l).

(** What a list of listeners does to one element, and the changes it
    gathers for the elements of identifier [i]: later changes win. *)
Definition onElement (listeners : list Listener) (ev : PointerEvent.t)
    (el : Element.t) : Element.t :=
  fold_left
    (fun el l =>
       let '(id, changes) := l ev in
       if (Element.id el =? id)%Z then spread el changes else el)
    listeners el.

Definition noChanges : Changes.t :=
  {| Changes.x := None; Changes.y := None;
     Changes.width := None; Changes.height := None |}.

Definition mergeChanges (c1 c2 : Changes.t) : Changes.t :=
  {| Changes.x :=
       match Changes.x c2 with Some v => Some v | None => Changes.x c1 end;
     Changes.y :=
       match Changes.y c2 with Some v => Some v | None => Changes.y c1 end;
     Changes.width :=
       match Changes.width c2 with Some v => Some v | None => Changes.width c1 end;
     Changes.height :=
       match Changes.height c2 with Some v => Some v | None => Changes.height c1 end |}.

Definition changesFor (i : Z) (listeners : list Listener) (ev : PointerEvent.t)
    (acc : Changes.t) : Changes.t :=
  fold_left
    (fun acc l =>
       let '(id, changes) := l ev in
       if (i =? id)%Z then mergeChanges acc changes else acc)
    listeners acc.

(** Two gestures on [sampleZone 5] whose releases have not happened yet: a
    drag and a resize by the south-east handle, both pressed at the
    origin at zoom 1. *)
Definition sampleListeners : list Listener :=
  match GenericZone.handleDragStart design (sampleZone 5) 1
          (PointerEvent.make 0 0),
        GenericZone.handleResizeStart (sampleZone 5) 1
          (PointerEvent.make 0 0) "se" with
  | Some drag, Some resize => [drag; resize]
  | _, _ => []
  end.

(** ** The overlap predicate and the conflict check *)

Section BookingProofs.
Variable DateParse : string -> option Z.
Local Open Scope Z_scope.

Lemma overlap_test_iff (s1 e1 s2 e2 : Z) :
  (s1 <? e2) && (e1 >? s2) = true <-> overlap s1 e1 s2 e2.
Proof.
  unfold overlap.
  rewrite andb_true_iff, Z.ltb_lt, Z.gtb_lt. lia.
Qed.

Lemma overlap_test_false_iff (s1 e1 s2 e2 : Z) :
  (s1 <? e2) && (e1 >? s2) = false <-> ~ overlap s1 e1 s2 e2.
Proof.
  rewrite <- overlap_test_iff. destruct ((s1 <? e2) && (e1 >? s2)).
  - split; [discriminate | intros H; elim H; reflexivity].
  - split; [intros _ H; discriminate | reflexivity].
Qed.

(** With the date and the time filled in and readable, [handleSubmit]
    is decided by its scan of [existingReservations]. *)
Lemma handleSubmit_scan (court : Element.t) (existing : list Reservation.t)
    (f : Form.t) (now nStart : Z) :
  blank (Form.date f) = false ->
  blank (Form.startTime f) = false ->
  DateParse (Form.date f ++ "T" ++ Form.startTime f)%string = Some nStart ->
  handleSubmit DateParse court existing f now =
    if existsb (fun res =>
                  (nStart <? Reservation.end_ res) &&
                  (nStart + Form.duration f * 60000 >? Reservation.start res))
               existing
    then Rejected MsgConflict
    else Saved (newReservation court f now nStart).
Proof.
  intros Hd Ht Hp. unfold handleSubmit. rewrite Hd, Ht, Hp. reflexivity.
Qed.

Lemma scan_true_iff (nStart nEnd : Z) (existing : list Reservation.t) :
  existsb (fun res =>
             (nStart <? Reservation.end_ res) && (nEnd >? Reservation.start res))
          existing = true <->
  exists r, In r existing /\
            overlap nStart nEnd (Reservation.start r) (Reservation.end_ r).
Proof.
  rewrite existsb_exists.
  split; intros [r [Hin H]]; exists r; split; trivial;
    apply overlap_test_iff; exact H.
Qed.

Lemma scan_false_iff (nStart nEnd : Z) (existing : list Reservation.t) :
  existsb (fun res =>
             (nStart <? Reservation.end_ res) && (nEnd >? Reservation.start res))
          existing = false <->
  forall r, In r existing ->
            ~ overlap nStart nEnd (Reservation.start r) (Reservation.end_ r).
Proof.
  rewrite <- not_true_iff_false, scan_true_iff.
  split.
  - intros H r Hin Ho. apply H. exists r. split; assumption.
  - intros H [r [Hin Ho]]. exact (H r Hin Ho).
Qed.

(** The reservations of one court, as the modal receives them. *)
Lemma in_court_reservations (c : Element.t) (rs : list Reservation.t)
    (r : Reservation.t) :
  In r (filter (fun r => Reservation.courtId r =? Element.id c) rs) <->
  In r rs /\ Reservation.courtId r = Element.id c.
Proof. rewrite filter_In, Z.eqb_eq. reflexivity. Qed.

Lemma filter_twice {A : Type} (p q : A -> bool) (l : list A) :
  filter q (filter p l) = filter (fun a => p a && q a) l.
Proof.
  induction l as [|a l IH]; simpl; trivial.
  destruct (p a); simpl; rewrite IH; reflexivity.
Qed.

(** The conflict test of the availability search on one court. *)
Lemma search_conflict_iff (c : Element.t) (rs : list Reservation.t)
    (searchStart duration : Z) :
  existsb (fun res =>
             if negb (Reservation.courtId res =? Element.id c) then false
             else js_lt (Some searchStart) (Some (Reservation.end_ res)) &&
                  js_gt (js_add (Some searchStart) (duration * 60000))
                        (Some (Reservation.start res))) rs = true <->
  exists r, In r rs /\ Reservation.courtId r = Element.id c /\
            overlap searchStart (searchStart + duration * 60000)
                    (Reservation.start r) (Reservation.end_ r).
Proof.
  rewrite existsb_exists. simpl.
  split.
  - intros [r [Hin H]]. exists r. split; trivial.
    destruct (Reservation.courtId r =? Element.id c) eqn:E; simpl in H;
      [|discriminate].
    apply Z.eqb_eq in E. split; trivial. apply overlap_test_iff. exact H.
  - intros [r [Hin [E H]]]. exists r. split; trivial.
    apply Z.eqb_eq in E. rewrite E. simpl. apply overlap_test_iff. exact H.
Qed.
End BookingProofs.

Section BookingTheorems.
Local Open Scope Z_scope.

(** C1.  The conflict check of [handleSubmit] and the search of
    [getAvailableCourts] decide the same predicate on a candidate
    [[s1,e1)] and a reservation [[s2,e2)] of the court: [s1 < e2] and
    [e1 > s2].  Touching intervals do not overlap: against a booking of
    10:00 to 11:00, the candidate 11:00 to 12:00 passes both, and the
    candidate 10:59 to 11:30 fails both. *)
Theorem overlap_half_open :
  (forall DateParse (c : Element.t) (res : Reservation.t) (f : Form.t)
          (now s1 : Z),
      blank (Form.date f) = false ->
      blank (Form.startTime f) = false ->
      DateParse (Form.date f ++ "T" ++ Form.startTime f)%string = Some s1 ->
      Element.type c = Court ->
      Reservation.courtId res = Element.id c ->
      let e1 := s1 + Form.duration f * 60000 in
      let s2 := Reservation.start res in
      let e2 := Reservation.end_ res in
      (handleSubmit DateParse c [res] f now = Rejected MsgConflict
         <-> s1 < e2 /\ e1 > s2) /\
      (getAvailableCourts DateParse [c] [res] (Form.date f) (Form.startTime f)
                          (Form.duration f) = []
         <-> s1 < e2 /\ e1 > s2)) /\
  (let A := sampleBooking 7 1 10 0 11 0 in
   let c := sampleCourt 1 1 in
   let B := sampleForm "Eva" "11:00" 60 "" in
   let B' := sampleForm "Eva" "10:59" 31 "" in
   handleSubmit epochDayParse c [A] B 8 =
     Saved (newReservation c B 8 39600000) /\
   getAvailableCourts epochDayParse [c] [A] "1970-01-01" "11:00" 60 = [c] /\
   handleSubmit epochDayParse c [A] B' 8 = Rejected MsgConflict /\
   getAvailableCourts epochDayParse [c] [A] "1970-01-01" "10:59" 31 = []).
Proof.
  split.
  - intros DateParse c res f now s1 Hd Ht Hp Hc Hr e1 s2 e2.
    split.
    + rewrite (handleSubmit_scan DateParse c [res] f now s1 Hd Ht Hp).
      fold e1. simpl. rewrite orb_false_r.
      destruct ((s1 <? Reservation.end_ res) && (e1 >? Reservation.start res))
        eqn:E.
      * apply overlap_test_iff in E. split; [intros _; exact E | reflexivity].
      * apply overlap_test_false_iff in E.
        split; [discriminate | intros H; elim (E H)].
    + unfold getAvailableCourts. rewrite Hd, Ht, Hp. simpl.
      rewrite Hc. simpl. apply Z.eqb_eq in Hr. rewrite Hr. simpl.
      rewrite orb_false_r. fold e1 s2 e2.
      destruct ((s1 <? e2) && (e1 >? s2)) eqn:E; simpl.
      * apply overlap_test_iff in E. split; [intros _; exact E | reflexivity].
      * apply overlap_test_false_iff in E.
        split; [discriminate | intros H; elim (E H)].
  - repeat split; reflexivity.
Qed.

(** The general statement of [overlap_half_open] at the booking 10:00 to
    11:00 and the candidate 10:59 to 11:30. *)
Lemma overlap_half_open_witness :
  let A := sampleBooking 7 1 10 0 11 0 in
  let c := sampleCourt 1 1 in
  let B' := sampleForm "Eva" "10:59" 31 "" in
  (handleSubmit epochDayParse c [A] B' 8 = Rejected MsgConflict
     <-> 39540000 < 39600000 /\ 39540000 + 31 * 60000 > 36000000) /\
  (getAvailableCourts epochDayParse [c] [A] "1970-01-01" "10:59" 31 = []
     <-> 39540000 < 39600000 /\ 39540000 + 31 * 60000 > 36000000).
Proof.
  exact (proj1 overlap_half_open epochDayParse (sampleCourt 1 1)
           (sampleBooking 7 1 10 0 11 0) (sampleForm "Eva" "10:59" 31 "")
           8 39540000 eq_refl eq_refl eq_refl eq_refl eq_refl).
Defined.

(** C2.  With the modal open on a court and the form filled in with a
    readable date and time: if a reservation of that court overlaps the
    submitted interval, [handleSubmit] fails with the conflict toast and
    the application state, the reservation store included, is unchanged;
    if none does (sharing an endpoint is allowed), the submission is
    accepted and the store gains exactly the submitted reservation, at
    its end. *)
Theorem conflict_rejected_else_committed DateParse (st : AppState)
    (c : Element.t) (f : Form.t) (now nStart : Z) :
  managingState st = Some c ->
  blank (Form.name f) = false ->
  blank (Form.date f) = false ->
  blank (Form.startTime f) = false ->
  DateParse (Form.date f ++ "T" ++ Form.startTime f)%string = Some nStart ->
  let nEnd := nStart + Form.duration f * 60000 in
  let existing :=
    filter (fun r => Reservation.courtId r =? Element.id c) (reservations st) in
  ((exists r, In r (reservations st) /\
              Reservation.courtId r = Element.id c /\
              overlap nStart nEnd (Reservation.start r) (Reservation.end_ r)) ->
     handleSubmit DateParse c existing f now = Rejected MsgConflict /\
     errorKind (handleSubmit DateParse c existing f now) = Some Conflict /\
     submitReservation DateParse f now st = st) /\
  ((forall r, In r (reservations st) ->
              Reservation.courtId r = Element.id c ->
              ~ overlap nStart nEnd (Reservation.start r) (Reservation.end_ r)) ->
     handleSubmit DateParse c existing f now =
       Saved (newReservation c f now nStart) /\
     reservations (submitReservation DateParse f now st) =
       reservations st ++ [newReservation c f now nStart] /\
     elements (submitReservation DateParse f now st) = elements st).
Proof.
  intros Hm Hn Hd Ht Hp nEnd existing.
  pose proof (handleSubmit_scan DateParse c existing f now nStart Hd Ht Hp)
    as Hscan.
  fold nEnd in Hscan.
  assert (Hgate : formSubmit DateParse c existing f now =
                  Some (handleSubmit DateParse c existing f now)).
  { unfold formSubmit. rewrite Hn, Hd, Ht. reflexivity. }
  split.
  - intros [r [Hin [Hc Ho]]].
    assert (Hex : existsb (fun res =>
                     (nStart <? Reservation.end_ res) &&
                     (nEnd >? Reservation.start res)) existing = true).
    { apply scan_true_iff. exists r. split; trivial.
      apply in_court_reservations. split; assumption. }
    rewrite Hex in Hscan.
    repeat split.
    + exact Hscan.
    + rewrite Hscan. reflexivity.
    + unfold submitReservation. rewrite Hm. fold existing.
      rewrite Hgate, Hscan. reflexivity.
  - intros Hfree.
    assert (Hex : existsb (fun res =>
                     (nStart <? Reservation.end_ res) &&
                     (nEnd >? Reservation.start res)) existing = false).
    { apply scan_false_iff. intros r Hin.
      apply in_court_reservations in Hin. destruct Hin as [Hin Hc].
      exact (Hfree r Hin Hc). }
    rewrite Hex in Hscan.
    repeat split.
    + exact Hscan.
    + unfold submitReservation. rewrite Hm. fold existing.
      rewrite Hgate, Hscan. reflexivity.
    + unfold submitReservation. rewrite Hm. fold existing.
      rewrite Hgate, Hscan. reflexivity.
Qed.

(** [conflict_rejected_else_committed] on [sampleManaging]: the slot from
    11:00 to 12:00, adjacent to the booking from 10:00 to 11:00, is
    committed. *)
Lemma conflict_rejected_else_committed_witness :
  let B := sampleForm "Eva" "11:00" 60 "" in
  managingState sampleManaging = Some (sampleCourt 1 1) /\
  epochDayParse (Form.date B ++ "T" ++ Form.startTime B)%string = Some 39600000 /\
  reservations (submitReservation epochDayParse B 8 sampleManaging) =
    [sampleBooking 7 1 10 0 11 0;
     newReservation (sampleCourt 1 1) B 8 39600000].
Proof.
  intros B. split; [reflexivity|]. split; [reflexivity|].
  refine (proj1 (proj2 (proj2
    (conflict_rejected_else_committed epochDayParse sampleManaging
       (sampleCourt 1 1) B 8 39600000
       eq_refl eq_refl eq_refl eq_refl eq_refl) _))).
  intros r [Hr|[]] _ [H1 H2]. subst r.
  vm_compute in H1. discriminate H1.
Defined.

(** C6.  For a readable search date and time, [getAvailableCourts] is
    the filter of [elements], in their order, by the property of being a
    court none of whose reservations overlaps
    [[searchStart, searchStart + duration)].  A court booked from 14:00
    to 15:30 is left out for the candidate 14:30 to 15:00 and kept for
    the candidate 15:30 to 16:00. *)
Theorem available_courts_exact :
  (forall DateParse (els : list Element.t) (rs : list Reservation.t)
          (searchDate searchTime : string) (duration searchStart : Z),
      blank searchDate = false ->
      blank searchTime = false ->
      DateParse (searchDate ++ "T" ++ searchTime)%string = Some searchStart ->
      let searchEnd := searchStart + duration * 60000 in
      exists p : Element.t -> bool,
        (forall el, p el = true <->
           Element.type el = Court /\
           forall r, In r rs -> Reservation.courtId r = Element.id el ->
                     ~ overlap searchStart searchEnd
                         (Reservation.start r) (Reservation.end_ r)) /\
        getAvailableCourts DateParse els rs searchDate searchTime duration =
          filter p els) /\
  getAvailableCourts epochDayParse sampleLayout sampleBookings
    "1970-01-01" "14:30" 30 = [sampleCourt 3 2] /\
  getAvailableCourts epochDayParse sampleLayout sampleBookings
    "1970-01-01" "15:30" 30 = [sampleCourt 1 1; sampleCourt 3 2].
Proof.
  split; [|split; reflexivity].
  intros DateParse els rs searchDate searchTime duration searchStart
         Hd Ht Hp searchEnd.
  exists (fun el =>
    isCourt (Element.type el) &&
    negb (existsb (fun res =>
             if negb (Reservation.courtId res =? Element.id el) then false
             else js_lt (Some searchStart) (Some (Reservation.end_ res)) &&
                  js_gt (js_add (Some searchStart) (duration * 60000))
                        (Some (Reservation.start res))) rs)).
  split.
  - intros el. rewrite andb_true_iff, negb_true_iff.
    rewrite <- not_true_iff_false, search_conflict_iff. fold searchEnd.
    split.
    + intros [Hc Hfree]. split.
      * destruct (Element.type el); [reflexivity | discriminate].
      * intros r Hin Hr Ho. apply Hfree. exists r. auto.
    + intros [Hc Hfree]. split.
      * rewrite Hc. reflexivity.
      * intros [r [Hin [Hr Ho]]]. exact (Hfree r Hin Hr Ho).
  - unfold getAvailableCourts. rewrite Hd, Ht, Hp. simpl orb. cbv iota.
    apply filter_twice.
Qed.

(** The general statement of [available_courts_exact] on [sampleLayout]
    and the candidate 14:30 to 15:00. *)
Lemma available_courts_exact_witness :
  exists p : Element.t -> bool,
    (forall el, p el = true <->
       Element.type el = Court /\
       forall r, In r sampleBookings -> Reservation.courtId r = Element.id el ->
                 ~ overlap 52200000 (52200000 + 30 * 60000)
                     (Reservation.start r) (Reservation.end_ r)) /\
    getAvailableCourts epochDayParse sampleLayout sampleBookings
      "1970-01-01" "14:30" 30 = filter p sampleLayout.
Proof.
  exact (proj1 available_courts_exact epochDayParse sampleLayout
           sampleBookings "1970-01-01"%string "14:30"%string 30 52200000
           eq_refl eq_refl eq_refl).
Defined.
End BookingTheorems.

(** ** The layout editor keeps its invariant *)

Section LayoutInvariant.
Variable DateParse : string -> option Z.
Local Open Scope R_scope.

Lemma spread_id (el : Element.t) (ch : Changes.t) :
  Element.id (spread el ch) = Element.id el.
Proof. reflexivity. Qed.

Lemma spread_sized (el : Element.t) (ch : Changes.t) :
  sized el -> keepsMinSize ch -> sized (spread el ch).
Proof.
  intros [w [h [Hw [Hh [Bw Bh]]]]] [Kw Kh]. unfold sized. simpl.
  destruct (Changes.width ch) as [w'|] eqn:Ew;
    destruct (Changes.height ch) as [h'|] eqn:Eh;
    rewrite ?Hw, ?Hh; do 2 eexists; repeat split; eauto.
Qed.

Lemma drag_listener_keeps (handler : Mode -> Element.t -> R -> PointerEvent.t ->
                                     option Listener)
    (m : Mode) (data : Element.t) (z : R) (e : PointerEvent.t) (l : Listener) :
  handler = PadelCourt.handleDragStart \/ handler = GenericZone.handleDragStart ->
  handler m data z e = Some l ->
  forall ev, keepsMinSize (snd (l ev)).
Proof.
  intros [-> | ->] H ev;
    unfold PadelCourt.handleDragStart, GenericZone.handleDragStart in H;
    destruct (negb (isDesign m)); try discriminate;
    injection H as <-; split; simpl; discriminate.
Qed.

Lemma resize_listener_keeps (data : Element.t) (z : R) (e : PointerEvent.t)
    (direction : string) (l : Listener) :
  sized data ->
  GenericZone.handleResizeStart data z e direction = Some l ->
  forall ev, keepsMinSize (snd (l ev)).
Proof.
  intros [w [h [Hw [Hh [Bw Bh]]]]] H ev.
  unfold GenericZone.handleResizeStart in H. rewrite Hw, Hh in H.
  injection H as <-.
  destruct (includes "e" direction), (includes "w" direction),
           (includes "s" direction), (includes "n" direction);
    split; simpl; intros v Hv; injection Hv as <-;
    solve [apply Rmax_l | assumption].
Qed.

Lemma initial_invariant (w h : R) : layoutInvariant (initialState w h).
Proof.
  repeat split; simpl; try contradiction; try discriminate; lra.
Qed.

Lemma map_preserves_zones (f : Element.t -> Element.t) (els : list Element.t) :
  (forall el, Element.type (f el) = Element.type el) ->
  (forall el, sized el -> sized (f el)) ->
  (forall el, In el els -> Element.type el = Zone -> sized el) ->
  forall el, In el (map f els) -> Element.type el = Zone -> sized el.
Proof.
  intros Ht Hs H el Hin Hz. apply in_map_iff in Hin.
  destruct Hin as [el0 [<- Hin0]]. apply Hs, H; trivial.
  rewrite <- Ht. exact Hz.
Qed.

(** The invariant reads the elements, the listener and the zoom only. *)
Lemma invariant_frame (st st' : AppState) :
  elements st' = elements st ->
  pointerListener st' = pointerListener st ->
  zoom st' = zoom st ->
  layoutInvariant st -> layoutInvariant st'.
Proof.
  unfold layoutInvariant. intros -> -> ->. trivial.
Qed.

Lemma invariant_setElements (st : AppState) (els : list Element.t) :
  (forall el, In el els -> Element.type el = Zone -> sized el) ->
  layoutInvariant st -> layoutInvariant (setElements els st).
Proof.
  intros H [_ [Hl Hzoom]]. split; [exact H | split; [exact Hl | exact Hzoom]].
Qed.

Lemma invariant_setPointerListener (st : AppState) (l : option Listener) :
  (forall l', l = Some l' -> forall ev, keepsMinSize (snd (l' ev))) ->
  layoutInvariant st -> layoutInvariant (setPointerListener l st).
Proof.
  intros H [Hz [_ Hzoom]]. split; [exact Hz | split; [exact H | exact Hzoom]].
Qed.

Lemma invariant_setZoom (st : AppState) (z : R) :
  1 / 2 <= z <= 3 -> layoutInvariant st -> layoutInvariant (setZoom z st).
Proof.
  intros H [Hz [Hl _]]. split; [exact Hz | split; [exact Hl | exact H]].
Qed.

Lemma dispatch_invariant (st : AppState) (ev : Event) :
  layoutInvariant st -> enabled st ev -> layoutInvariant (dispatch DateParse st ev).
Proof.
  intros Hinv Hen. pose proof Hinv as [Hz [Hl Hzoom]].
  destruct ev; simpl in *;
    try (apply (invariant_frame st); [reflexivity .. | exact Hinv]).
  - (* AddCourt *)
    apply invariant_setElements; trivial.
    intros el Hin Ht. apply in_app_or in Hin. destruct Hin as [Hin|[<-|[]]].
    + apply Hz; trivial.
    + discriminate Ht.
  - (* AddZone *)
    apply invariant_setElements; trivial.
    intros el Hin Ht. apply in_app_or in Hin. destruct Hin as [Hin|[<-|[]]].
    + apply Hz; trivial.
    + exists (10 * SCALE), (5 * SCALE).
      unfold MIN_SIZE_PX, SCALE. repeat split; simpl; lra.
  - (* ClearLayout *)
    apply invariant_setElements; trivial. intros el [].
  - (* Rotate *)
    apply invariant_setElements; trivial.
    apply map_preserves_zones; trivial.
    + intros el. destruct (Element.id el =? id)%Z; reflexivity.
    + intros el. destruct (Element.id el =? id)%Z; trivial.
  - (* Delete *)
    apply (invariant_frame (setElements
             (filter (fun el => negb (Element.id el =? id)%Z) (elements st)) st));
      try reflexivity.
    apply invariant_setElements; trivial.
    intros el Hin. apply filter_In in Hin. apply Hz, Hin.
  - (* CourtPointerDown *)
    destruct (PadelCourt.handleDragStart (mode st) data (zoom st) e)
      as [l|] eqn:E; trivial.
    apply invariant_setPointerListener.
    + intros l' H. injection H as <-.
      eapply (drag_listener_keeps PadelCourt.handleDragStart); eauto.
    + apply (invariant_frame st); trivial.
  - (* ZonePointerDown *)
    destruct (GenericZone.handleDragStart (mode st) data (zoom st) e)
      as [l|] eqn:E; trivial.
    apply invariant_setPointerListener.
    + intros l' H. injection H as <-.
      eapply (drag_listener_keeps GenericZone.handleDragStart); eauto.
    + apply (invariant_frame st); trivial.
  - (* HandlePointerDown *)
    destruct Hen as [Hin [Ht _]].
    destruct (GenericZone.handleResizeStart data (zoom st) e direction)
      as [l|] eqn:E; trivial.
    apply invariant_setPointerListener; trivial.
    intros l' H. injection H as <-.
    eapply resize_listener_keeps; eauto.
  - (* PointerMove *)
    destruct (pointerListener st) as [l|] eqn:E; trivial.
    pose proof (Hl l eq_refl ev) as Hk.
    destruct (l ev) as [id changes]. simpl in Hk.
    apply invariant_setElements; trivial.
    apply map_preserves_zones; trivial.
    + intros el. destruct (Element.id el =? id)%Z; reflexivity.
    + intros el Hs. destruct (Element.id el =? id)%Z; trivial.
      apply spread_sized; trivial.
  - (* PointerUp *)
    apply invariant_setPointerListener; trivial. discriminate.
  - (* ZoomIn *)
    apply invariant_setZoom; trivial. split.
    + apply Rmin_glb; lra.
    + apply Rmin_r.
  - (* ZoomOut *)
    apply invariant_setZoom; trivial. split.
    + pose proof (Rmax_r (zoom st - 0.1) 0.5). lra.
    + apply Rmax_lub; lra.
  - (* ResetZoom *)
    apply invariant_setZoom; trivial. lra.
  - (* SubmitForm *)
    unfold submitReservation.
    destruct (managingState st) as [c|]; trivial.
    destruct (formSubmit DateParse c _ f now) as [[m|r]|]; trivial.
Qed.

Lemma run_invariant (w h : R) (evs : list Event) (st : AppState) :
  run DateParse w h evs st -> layoutInvariant st.
Proof.
  induction 1 as [|evs st ev Hrun IH Hen].
  - apply initial_invariant.
  - apply dispatch_invariant; assumption.
Qed.

(** Every zone of a reachable layout carries both sizes, each at least
    [MIN_SIZE_PX]. *)
Lemma zones_sized (st : AppState) (el : Element.t) :
  reachable DateParse st -> In el (elements st) -> Element.type el = Zone ->
  sized el.
Proof.
  intros [w [h [evs Hrun]]]. apply (run_invariant w h evs st Hrun).
Qed.

Lemma zoom_positive (st : AppState) : reachable DateParse st -> 0 < zoom st.
Proof.
  intros [w [h [evs Hrun]]].
  destruct (run_invariant w h evs st Hrun) as [_ [_ Hz]]. lra.
Qed.
End LayoutInvariant.

(** ** Resizing and moving *)

Section GeometryTheorems.
Local Open Scope R_scope.

Lemma quarter_turn : 90 * PI / 180 = PI / 2.
Proof. lra. Qed.

Lemma no_turn : 0 * PI / 180 = 0.
Proof. lra. Qed.





(** The listener that the east handle registers. *)
Lemma east_handle_listener (data : Element.t) (zoom startW startH : R)
    (e : PointerEvent.t) :
  Element.width data = Some startW ->
  Element.height data = Some startH ->
  GenericZone.handleResizeStart data zoom e "e" =
    Some (fun moveEvent =>
      let t := Element.rotation data * PI / 180 in
      let dx := (PointerEvent.clientX moveEvent - PointerEvent.clientX e) / zoom in
      let dy := (PointerEvent.clientY moveEvent - PointerEvent.clientY e) / zoom in
      let newW := Rmax MIN_SIZE_PX (startW + (dx * cos t + dy * sin t)) in
      (Element.id data,
       {| Changes.x :=
            Some (Element.x data + ((newW - startW) / 2 * cos t + 0 * - sin t));
          Changes.y :=
            Some (Element.y data + ((newW - startW) / 2 * sin t + 0 * cos t));
          Changes.width := Some newW;
          Changes.height := Some startH |})).
Proof.
  intros Hw Hh. unfold GenericZone.handleResizeStart. rewrite Hw, Hh.
  reflexivity.
Qed.

(** C4 does not hold in the code.  On a zone of size [(startW, startH)],
    dragging the east handle so that the pointer moves by [d] in scene
    units along the width axis, while [startW + d] stays at least
    [MIN_SIZE_PX], the gesture sets the width [startW + d] and shifts the
    stored position by [d / 2] along the width axis.  The stored position
    is the corner offset of the box, so at rotation 0 (pointer moved by
    [d * zoom] screen pixels in x) the west edge of the box moves by
    [d / 2] instead of staying, the east edge by [3 * d / 2] instead of
    [d], and the centre by [d] instead of [d / 2].  At rotation 90
    (pointer moved by [d * zoom] in y) the west edge stays and the east
    edge moves by [d], but the north and south edges, which the handle
    does not drag, both move by [d / 2]. *)
Theorem east_handle_drags_the_west_edge (data : Element.t)
    (zoom d other startW startH : R) (e : PointerEvent.t) :
  0 < zoom ->
  Element.width data = Some startW ->
  Element.height data = Some startH ->
  MIN_SIZE_PX <= startW + d ->
  let x := Element.x data in
  let y := Element.y data in
  (Element.rotation data = 0 ->
   let moveEvent :=
     {| PointerEvent.clientX := PointerEvent.clientX e + d * zoom;
        PointerEvent.clientY := PointerEvent.clientY e + other |} in
   exists l,
     GenericZone.handleResizeStart data zoom e "e" = Some l /\
     l moveEvent =
       (Element.id data,
        {| Changes.x := Some (x + d / 2); Changes.y := Some y;
           Changes.width := Some (startW + d);
           Changes.height := Some startH |}) /\
     Rendered.westEdge 0 x y startW startH = x /\
     Rendered.eastEdge 0 x y startW startH = x + startW /\
     Rendered.westEdge 0 (x + d / 2) y (startW + d) startH =
       Rendered.westEdge 0 x y startW startH + d / 2 /\
     Rendered.eastEdge 0 (x + d / 2) y (startW + d) startH =
       Rendered.eastEdge 0 x y startW startH + 3 * d / 2 /\
     Rendered.centreX (x + d / 2) (startW + d) = Rendered.centreX x startW + d) /\
  (Element.rotation data = 90 ->
   let moveEvent :=
     {| PointerEvent.clientX := PointerEvent.clientX e + other;
        PointerEvent.clientY := PointerEvent.clientY e + d * zoom |} in
   exists l,
     GenericZone.handleResizeStart data zoom e "e" = Some l /\
     l moveEvent =
       (Element.id data,
        {| Changes.x := Some x; Changes.y := Some (y + d / 2);
           Changes.width := Some (startW + d);
           Changes.height := Some startH |}) /\
     Rendered.westEdge 90 x (y + d / 2) (startW + d) startH =
       Rendered.westEdge 90 x y startW startH /\
     Rendered.eastEdge 90 x (y + d / 2) (startW + d) startH =
       Rendered.eastEdge 90 x y startW startH + d /\
     Rendered.northEdge 90 x (y + d / 2) (startW + d) startH =
       Rendered.northEdge 90 x y startW startH - d / 2 /\
     Rendered.southEdge 90 x (y + d / 2) (startW + d) startH =
       Rendered.southEdge 90 x y startW startH - d / 2).
Proof.
  intros Hzoom Hw Hh Hmin x y.
  assert (Hz : zoom <> 0) by lra.
  split; intros Hrot moveEvent;
    rewrite (east_handle_listener data zoom startW startH e Hw Hh);
    eexists; (split; [reflexivity|]);
    unfold Rendered.westEdge, Rendered.eastEdge, Rendered.northEdge,
      Rendered.southEdge, Rendered.centreX, Rendered.centreY,
      Rect.alongU, Rect.alongV, Rect.angleRad;
    cbv zeta; rewrite Hrot;
    rewrite ?no_turn, ?quarter_turn, ?cos_0, ?sin_0, ?cos_PI2, ?sin_PI2;
    unfold moveEvent; cbn [PointerEvent.clientX PointerEvent.clientY].
  - assert (Hd : (PointerEvent.clientX e + d * zoom - PointerEvent.clientX e)
                 / zoom * 1
                 + (PointerEvent.clientY e + other - PointerEvent.clientY e)
                   / zoom * 0 = d) by (field; exact Hz).
    rewrite Hd, (Rmax_right _ _ Hmin).
    fold x y. repeat split; try lra.
    f_equal. f_equal; f_equal; lra.
  - assert (Hd : (PointerEvent.clientX e + other - PointerEvent.clientX e)
                 / zoom * 0
                 + (PointerEvent.clientY e + d * zoom - PointerEvent.clientY e)
                   / zoom * 1 = d) by (field; exact Hz).
    rewrite Hd, (Rmax_right _ _ Hmin).
    fold x y. repeat split; try lra.
    f_equal. f_equal; f_equal; lra.
Qed.

(** [east_handle_drags_the_west_edge] on [sampleZone 5] (at [(350, 275)],
    150 by 75, not turned) at zoom 1: the east handle pressed at
    [(100, 100)] and moved to [(120, 107)]. *)
Lemma east_handle_drags_the_west_edge_witness :
  let data := sampleZone 5 in
  let e := PointerEvent.make 100 100 in
  let x := Element.x data in
  let y := Element.y data in
  exists l,
    GenericZone.handleResizeStart data 1 e "e" = Some l /\
    l {| PointerEvent.clientX := PointerEvent.clientX e + 20 * 1;
         PointerEvent.clientY := PointerEvent.clientY e + 7 |} =
      (Element.id data,
       {| Changes.x := Some (x + 20 / 2); Changes.y := Some y;
          Changes.width := Some (150 + 20); Changes.height := Some 75 |}) /\
    Rendered.westEdge 0 x y 150 75 = x /\
    Rendered.eastEdge 0 x y 150 75 = x + 150 /\
    Rendered.westEdge 0 (x + 20 / 2) y (150 + 20) 75 =
      Rendered.westEdge 0 x y 150 75 + 20 / 2 /\
    Rendered.eastEdge 0 (x + 20 / 2) y (150 + 20) 75 =
      Rendered.eastEdge 0 x y 150 75 + 3 * 20 / 2 /\
    Rendered.centreX (x + 20 / 2) (150 + 20) = Rendered.centreX x 150 + 20.
Proof.
  assert (Hzoom : 0 < 1) by exact Rlt_0_1.
  assert (Hmin : MIN_SIZE_PX <= 150 + 20) by (unfold MIN_SIZE_PX; lra).
  exact (proj1 (east_handle_drags_the_west_edge (sampleZone 5) 1 20 7 150 75
                  (PointerEvent.make 100 100) Hzoom eq_refl eq_refl Hmin)
           eq_refl).
Defined.

(** C5.  A move gesture, on a court ([PadelCourt.handleDragStart]) or on
    a zone ([GenericZone.handleDragStart]), in design mode and at a
    positive zoom: the update it makes at a move event puts the element it
    is merged into at [(x0 + dxScreen / zoom, y0 + dyScreen / zoom)], where
    [(x0, y0)] is the position at press time and [(dxScreen, dyScreen)] the
    pointer displacement since the press, and it changes neither the
    rotation nor the sizes.  The update does not depend on the rotation of the element.
    The displacement at zoom 2 is half of the displacement at zoom 1. *)
Theorem move_is_zoomed_translation
    (handler : Mode -> Element.t -> R -> PointerEvent.t -> option Listener)
    (data : Element.t) (zoom : R) (e ev : PointerEvent.t) :
  handler = PadelCourt.handleDragStart \/ handler = GenericZone.handleDragStart ->
  0 < zoom ->
  let x0 := Element.x data in
  let y0 := Element.y data in
  let dxScreen := PointerEvent.clientX ev - PointerEvent.clientX e in
  let dyScreen := PointerEvent.clientY ev - PointerEvent.clientY e in
  (exists l,
     handler design data zoom e = Some l /\
     fst (l ev) = Element.id data /\
     (forall el,
        let moved := spread el (snd (l ev)) in
        Element.x moved = x0 + dxScreen / zoom /\
        Element.y moved = y0 + dyScreen / zoom /\
        Element.rotation moved = Element.rotation el /\
        Element.width moved = Element.width el /\
        Element.height moved = Element.height el) /\
     forall r, exists l',
       handler design (withRotation r data) zoom e = Some l' /\ l' ev = l ev) /\
  (exists l1 l2,
     handler design data 1 e = Some l1 /\
     handler design data 2 e = Some l2 /\
     Element.x (spread data (snd (l2 ev))) - x0 =
       (Element.x (spread data (snd (l1 ev))) - x0) / 2 /\
     Element.y (spread data (snd (l2 ev))) - y0 =
       (Element.y (spread data (snd (l1 ev))) - y0) / 2).
Proof.
  intros [-> | ->] Hzoom x0 y0 dxScreen dyScreen; split.
  - eexists. split; [reflexivity|]. simpl.
    repeat split; try reflexivity.
    intros r. eexists. split; reflexivity.
  - do 2 eexists. split; [reflexivity|]. split; [reflexivity|]. simpl.
    fold x0 y0. split; lra.
  - eexists. split; [reflexivity|]. simpl.
    repeat split; try reflexivity.
    intros r. eexists. split; reflexivity.
  - do 2 eexists. split; [reflexivity|]. split; [reflexivity|]. simpl.
    fold x0 y0. split; lra.
Qed.

(** [move_is_zoomed_translation] on [sampleCourt 1 1] turned by 90 degrees,
    at zoom 2, for a drag of 40 by 10 screen pixels. *)
Lemma move_is_zoomed_translation_witness :
  let data := withRotation 90 (sampleCourt 1 1) in
  let e := PointerEvent.make 100 100 in
  let ev := PointerEvent.make 140 110 in
  exists l,
    PadelCourt.handleDragStart design data 2 e = Some l /\
    fst (l ev) = Element.id data /\
    (forall el,
       let moved := spread el (snd (l ev)) in
       Element.x moved = 325 + (140 - 100) / 2 /\
       Element.y moved = 150 + (110 - 100) / 2 /\
       Element.rotation moved = Element.rotation el /\
       Element.width moved = Element.width el /\
       Element.height moved = Element.height el) /\
    forall r, exists l',
      PadelCourt.handleDragStart design (withRotation r data) 2 e = Some l' /\
      l' ev = l ev.
Proof.
  assert (Hzoom : 0 < 2) by exact Rlt_0_2.
  exact (proj1 (move_is_zoomed_translation PadelCourt.handleDragStart
                  (withRotation 90 (sampleCourt 1 1)) 2
                  (PointerEvent.make 100 100) (PointerEvent.make 140 110)
                  (or_introl eq_refl) Hzoom)).
Defined.
End GeometryTheorems.

(** ** Labels and identifiers *)

Section StoreTheorems.
Local Open Scope Z_scope.

Lemma run_app DateParse (w h : R) (pre evs : list Event) (st : AppState) :
  run DateParse w h pre st ->
  allEnabled DateParse st evs ->
  run DateParse w h (pre ++ evs) (fold_left (dispatch DateParse) evs st).
Proof.
  revert pre st. induction evs as [|ev evs IH]; intros pre st Hrun Hen.
  - rewrite app_nil_r. exact Hrun.
  - destruct Hen as [Hev Hrest]. simpl.
    replace (pre ++ ev :: evs) with ((pre ++ [ev]) ++ evs)
      by (rewrite <- app_assoc; reflexivity).
    apply IH; [|exact Hrest]. apply run_snoc; assumption.
Qed.

Lemma run_of_enabled DateParse (w h : R) (evs : list Event) :
  allEnabled DateParse (initialState w h) evs ->
  run DateParse w h evs (fold_left (dispatch DateParse) evs (initialState w h)).
Proof.
  intros H. apply (run_app DateParse w h [] evs); [apply run_nil | exact H].
Qed.

(** C8, as amended.  Three courts created one after the other are labelled
    1, 2 and 3.  When the second one is then deleted (its identifier being
    that of no other court) and a new court is created, the new court is
    labelled 3, the number of remaining courts plus one: the labels of the
    remaining courts are not renumbered, and the label 3 is now carried
    twice. *)
Theorem label_counts_courts (w h : R) (c1 c2 c3 c4 : string) (t1 t2 t3 t4 : Z)
    (r1 r2 r3 r4 r5 r6 r7 r8 : R) :
  t1 <> t2 ->
  t3 <> t2 ->
  let st3 :=
    addCourt c3 t3 r5 r6
      (addCourt c2 t2 r3 r4 (addCourt c1 t1 r1 r2 (initialState w h))) in
  let st4 := deleteElement t2 st3 in
  let st5 := addCourt c4 t4 r7 r8 st4 in
  map Element.label (elements st3) = [Some 1; Some 2; Some 3] /\
  map Element.id (elements st4) = [t1; t3] /\
  map Element.label (elements st4) = [Some 1; Some 3] /\
  map Element.label (elements st5) = [Some 1; Some 3; Some 3].
Proof.
  intros H12 H32 st3 st4 st5.
  apply Z.eqb_neq in H12. apply Z.eqb_neq in H32.
  split; [reflexivity|].
  unfold st5, st4, st3, addCourt, deleteElement. simpl.
  rewrite H12, H32, Z.eqb_refl. simpl.
  repeat split; reflexivity.
Qed.

(** [label_counts_courts] for courts created at times 1, 2, 3 and 4. *)
Lemma label_counts_courts_witness :
  let st3 :=
    addCourt COLORS.turf.blue 3 (1 / 2) (1 / 2)
      (addCourt COLORS.turf.green 2 (1 / 2) (1 / 2)
         (addCourt COLORS.turf.blue 1 (1 / 2) (1 / 2) (initialState 800 600))) in
  let st4 := deleteElement 2 st3 in
  let st5 := addCourt COLORS.turf.green 4 (1 / 2) (1 / 2) st4 in
  map Element.label (elements st3) = [Some 1; Some 2; Some 3] /\
  map Element.id (elements st4) = [1; 3] /\
  map Element.label (elements st4) = [Some 1; Some 3] /\
  map Element.label (elements st5) = [Some 1; Some 3; Some 3].
Proof.
  apply (label_counts_courts 800 600 COLORS.turf.blue COLORS.turf.green
           COLORS.turf.blue COLORS.turf.green 1 2 3 4);
    intros H; discriminate H.
Defined.

(** C8 fails as stated: after courts 1, 2 and 3, the deletion of court 2
    and one more creation, the new court is labelled 3 and not 4. *)
Lemma new_court_is_not_labelled_four :
  let st3 := fold_left (dispatch epochDayParse) sampleLabelling
               (initialState 800 600) in
  let st5 := addCourt COLORS.turf.green 4 (1 / 2) (1 / 2) (deleteElement 2 st3) in
  map Element.label (elements st3) = [Some 1; Some 2; Some 3] /\
  map Element.label (elements st5) = [Some 1; Some 3; Some 3] /\
  map Element.label (elements st5) <> [Some 1; Some 3; Some 4].
Proof.
  repeat split; try reflexivity. intros H. discriminate H.
Qed.

Lemma NoDup_app_split (S T : list Z) :
  NoDup (S ++ T) -> NoDup S /\ NoDup T /\ forall a, In a S -> ~ In a T.
Proof.
  induction S as [|b S IH]; simpl; intros H.
  - repeat split; [constructor | exact H | intros a []].
  - inversion H as [|b' l Hnot Hrest]; subst.
    destruct (IH Hrest) as [HS [HT Hdis]].
    repeat split; trivial.
    + constructor; trivial. intros Hb. apply Hnot, in_or_app. left. exact Hb.
    + intros a [<-|Ha]; [|apply Hdis; exact Ha].
      intros Hb. apply Hnot, in_or_app. right. exact Hb.
Qed.

Lemma NoDup_app_join (S T : list Z) :
  NoDup S -> NoDup T -> (forall a, In a S -> ~ In a T) -> NoDup (S ++ T).
Proof.
  induction S as [|b S IH]; simpl; intros HS HT Hdis; trivial.
  inversion HS as [|b' l Hnot Hrest]; subst.
  constructor.
  - intros Hb. apply in_app_or in Hb. destruct Hb as [Hb|Hb].
    + exact (Hnot Hb).
    + exact (Hdis b (or_introl eq_refl) Hb).
  - apply IH; trivial. intros a Ha. apply Hdis. right. exact Ha.
Qed.

(** One step of a store of identifiers drawn from stamps: the new
    identifiers are some of the old ones followed by nothing or by the
    stamps of the step. *)
Lemma ids_step (S T ids sub new : list Z) :
  incl ids S -> (NoDup S -> NoDup ids) ->
  incl sub ids -> (NoDup ids -> NoDup sub) ->
  new = [] \/ new = T ->
  incl (sub ++ new) (S ++ T) /\ (NoDup (S ++ T) -> NoDup (sub ++ new)).
Proof.
  intros Hincl Hnd Hsub Hsubnd Hnew. split.
  - intros a Ha. apply in_app_or in Ha. apply in_or_app.
    destruct Ha as [Ha|Ha].
    + left. apply Hincl, Hsub, Ha.
    + destruct Hnew as [-> | ->]; [destruct Ha | right; exact Ha].
  - intros H. destruct (NoDup_app_split S T H) as [HS [HT Hdis]].
    apply NoDup_app_join.
    + apply Hsubnd, Hnd, HS.
    + destruct Hnew as [-> | ->]; [constructor | exact HT].
    + intros a Ha Hb. destruct Hnew as [-> | ->]; [destruct Hb|].
      apply (Hdis a); trivial. apply Hincl, Hsub, Ha.
Qed.

Lemma map_filter_incl {A : Type} (g : A -> Z) (p : A -> bool) (l : list A) :
  incl (map g (filter p l)) (map g l).
Proof.
  intros a Ha. apply in_map_iff in Ha. destruct Ha as [b [<- Hb]].
  apply filter_In in Hb. apply in_map. apply Hb.
Qed.

Lemma map_filter_NoDup {A : Type} (g : A -> Z) (p : A -> bool) (l : list A) :
  NoDup (map g l) -> NoDup (map g (filter p l)).
Proof.
  induction l as [|a l IH]; simpl; intros H; trivial.
  inversion H as [|b l' Hnot Hrest]; subst.
  destruct (p a); simpl; [|apply IH; exact Hrest].
  constructor; [|apply IH; exact Hrest].
  intros Ha. apply Hnot. apply (map_filter_incl g p l). exact Ha.
Qed.

Lemma map_id_updated (f : Element.t -> Element.t) (els : list Element.t) :
  (forall el, Element.id (f el) = Element.id el) ->
  map Element.id (map f els) = map Element.id els.
Proof.
  intros H. rewrite map_map. apply map_ext. exact H.
Qed.

(** What one event does to the identifiers of the elements. *)
Lemma dispatch_element_ids DateParse (st : AppState) (ev : Event) :
  exists sub new,
    map Element.id (elements (dispatch DateParse st ev)) = sub ++ new /\
    incl sub (map Element.id (elements st)) /\
    (NoDup (map Element.id (elements st)) -> NoDup sub) /\
    (new = [] \/ new = creationStamps [ev]).
Proof.
  assert (Hsame : forall st', elements st' = elements st ->
            exists sub new,
              map Element.id (elements st') = sub ++ new /\
              incl sub (map Element.id (elements st)) /\
              (NoDup (map Element.id (elements st)) -> NoDup sub) /\
              (new = [] \/ new = creationStamps [ev])).
  { intros st' ->. exists (map Element.id (elements st)), [].
    rewrite app_nil_r. repeat split; auto. apply incl_refl. }
  assert (Hupd : forall f, (forall el, Element.id (f el) = Element.id el) ->
            exists sub new,
              map Element.id (map f (elements st)) = sub ++ new /\
              incl sub (map Element.id (elements st)) /\
              (NoDup (map Element.id (elements st)) -> NoDup sub) /\
              (new = [] \/ new = creationStamps [ev])).
  { intros f Hf. exists (map Element.id (elements st)), [].
    rewrite app_nil_r, (map_id_updated f _ Hf).
    repeat split; auto. apply incl_refl. }
  destruct ev; simpl dispatch; try (apply Hsame; reflexivity).
  - exists (map Element.id (elements st)), [now]. simpl elements.
    rewrite map_app. repeat split; auto. apply incl_refl.
  - exists (map Element.id (elements st)), [now]. simpl elements.
    rewrite map_app. repeat split; auto. apply incl_refl.
  - exists [], []. repeat split; auto.
    + intros a [].
    + intros _. constructor.
  - apply Hupd. intros el. destruct (Element.id el =? id); reflexivity.
  - exists (map Element.id
              (filter (fun el => negb (Element.id el =? id)) (elements st))), [].
    simpl elements. rewrite app_nil_r. repeat split; auto.
    + apply map_filter_incl.
    + apply map_filter_NoDup.
  - destruct (PadelCourt.handleDragStart (mode st) data (zoom st) e);
      apply Hsame; reflexivity.
  - destruct (GenericZone.handleDragStart (mode st) data (zoom st) e);
      apply Hsame; reflexivity.
  - destruct (GenericZone.handleResizeStart data (zoom st) e direction);
      apply Hsame; reflexivity.
  - destruct (pointerListener st) as [l|]; [|apply Hsame; reflexivity].
    destruct (l ev) as [id changes]. apply Hupd.
    intros el. destruct (Element.id el =? id); reflexivity.
  - unfold submitReservation.
    destruct (managingState st) as [c|]; [|apply Hsame; reflexivity].
    destruct (formSubmit DateParse c _ f now) as [[m|r]|];
      apply Hsame; reflexivity.
Qed.

(** What [handleSubmit] stores when it accepts. *)
Lemma handleSubmit_saved DateParse (c : Element.t) (existing : list Reservation.t)
    (f : Form.t) (now : Z) (r : Reservation.t) :
  handleSubmit DateParse c existing f now = Saved r ->
  exists nStart,
    DateParse (Form.date f ++ "T" ++ Form.startTime f)%string = Some nStart /\
    r = newReservation c f now nStart.
Proof.
  unfold handleSubmit. intros H.
  destruct (blank (Form.date f) || blank (Form.startTime f)); [discriminate|].
  destruct (DateParse (Form.date f ++ "T" ++ Form.startTime f)%string)
    as [nStart|]; [|discriminate].
  destruct (existsb _ existing); [discriminate|].
  injection H as <-. exists nStart. split; reflexivity.
Qed.

(** What one event does to the identifiers of the reservations. *)
Lemma dispatch_reservation_ids DateParse (st : AppState) (ev : Event) :
  exists sub new,
    map Reservation.id (reservations (dispatch DateParse st ev)) = sub ++ new /\
    incl sub (map Reservation.id (reservations st)) /\
    (NoDup (map Reservation.id (reservations st)) -> NoDup sub) /\
    (new = [] \/ new = submissionStamps [ev]).
Proof.
  assert (Hsame : forall st', reservations st' = reservations st ->
            exists sub new,
              map Reservation.id (reservations st') = sub ++ new /\
              incl sub (map Reservation.id (reservations st)) /\
              (NoDup (map Reservation.id (reservations st)) -> NoDup sub) /\
              (new = [] \/ new = submissionStamps [ev])).
  { intros st' ->. exists (map Reservation.id (reservations st)), [].
    rewrite app_nil_r. repeat split; auto. apply incl_refl. }
  destruct ev; simpl dispatch; try (apply Hsame; reflexivity).
  - destruct (PadelCourt.handleDragStart (mode st) data (zoom st) e);
      apply Hsame; reflexivity.
  - destruct (GenericZone.handleDragStart (mode st) data (zoom st) e);
      apply Hsame; reflexivity.
  - destruct (GenericZone.handleResizeStart data (zoom st) e direction);
      apply Hsame; reflexivity.
  - destruct (pointerListener st) as [l|]; [|apply Hsame; reflexivity].
    destruct (l ev) as [id changes]. apply Hsame. reflexivity.
  - unfold submitReservation.
    destruct (managingState st) as [c|]; [|apply Hsame; reflexivity].
    unfold formSubmit.
    destruct (blank (Form.name f) || blank (Form.date f) ||
              blank (Form.startTime f)); [apply Hsame; reflexivity|].
    destruct (handleSubmit DateParse c _ f now) as [m|r] eqn:E;
      [apply Hsame; reflexivity|].
    apply handleSubmit_saved in E. destruct E as [nStart [_ ->]].
    exists (map Reservation.id (reservations st)), [now]. simpl reservations.
    rewrite map_app. repeat split; auto. apply incl_refl.
  - exists (map Reservation.id
              (filter (fun r => negb (Reservation.id r =? resId))
                      (reservations st))), [].
    simpl reservations. rewrite app_nil_r. repeat split; auto.
    + apply map_filter_incl.
    + apply map_filter_NoDup.
Qed.

Lemma creationStamps_snoc (evs : list Event) (ev : Event) :
  creationStamps (evs ++ [ev]) = creationStamps evs ++ creationStamps [ev].
Proof. unfold creationStamps. apply flat_map_app. Qed.

Lemma submissionStamps_snoc (evs : list Event) (ev : Event) :
  submissionStamps (evs ++ [ev]) = submissionStamps evs ++ submissionStamps [ev].
Proof. unfold submissionStamps. apply flat_map_app. Qed.

Lemma run_ids DateParse (w h : R) (evs : list Event) (st : AppState) :
  run DateParse w h evs st ->
  (incl (map Element.id (elements st)) (creationStamps evs) /\
   (NoDup (creationStamps evs) -> NoDup (map Element.id (elements st)))) /\
  (incl (map Reservation.id (reservations st)) (submissionStamps evs) /\
   (NoDup (submissionStamps evs) -> NoDup (map Reservation.id (reservations st)))).
Proof.
  induction 1 as [|evs st ev Hrun [[IE1 IE2] [IR1 IR2]] Hen].
  - simpl. repeat split; try (intros a []); intros _; constructor.
  - split.
    + destruct (dispatch_element_ids DateParse st ev)
        as [sub [new [-> [Hsub [Hnd Hnew]]]]].
      rewrite creationStamps_snoc. apply (ids_step _ _ _ _ _ IE1 IE2 Hsub Hnd Hnew).
    + destruct (dispatch_reservation_ids DateParse st ev)
        as [sub [new [-> [Hsub [Hnd Hnew]]]]].
      rewrite submissionStamps_snoc.
      apply (ids_step _ _ _ _ _ IR1 IR2 Hsub Hnd Hnew).
Qed.

(** C9, as amended.  The identifier of an element or of a reservation is
    the clock reading of its creation.  Over every run of the application,
    if the elements are created at pairwise distinct clock readings, the
    identifiers of the elements of the layout are pairwise distinct, and if
    the forms are submitted at pairwise distinct clock readings, so are the
    identifiers of the stored reservations; every identifier in a store is
    one of those clock readings. *)
Theorem ids_distinct_at_distinct_stamps DateParse (w h : R) (evs : list Event)
    (st : AppState) :
  run DateParse w h evs st ->
  (NoDup (creationStamps evs) -> NoDup (map Element.id (elements st))) /\
  (NoDup (submissionStamps evs) ->
   NoDup (map Reservation.id (reservations st))) /\
  incl (map Element.id (elements st)) (creationStamps evs) /\
  incl (map Reservation.id (reservations st)) (submissionStamps evs).
Proof.
  intros Hrun. destruct (run_ids DateParse w h evs st Hrun) as [[E1 E2] [R1 R2]].
  repeat split; assumption.
Qed.

Lemma half_is_a_draw : (0 <= 1 / 2 < 1)%R.
Proof. lra. Qed.

Lemma sampleSession_runs (name deposit : string) :
  run epochDayParse 800 600 (sampleSession name deposit)
      (afterSession (sampleSession name deposit)).
Proof.
  apply run_of_enabled. simpl.
  repeat split; try exact (proj1 half_is_a_draw); try exact (proj2 half_is_a_draw);
    try discriminate.
  left. reflexivity.
Qed.

Lemma sampleBusy_runs :
  run epochDayParse 800 600 sampleBusy (afterSession sampleBusy).
Proof.
  apply run_of_enabled. simpl.
  repeat split; try exact (proj1 half_is_a_draw);
    try exact (proj2 half_is_a_draw); try discriminate;
    left; reflexivity.
Qed.

(** [ids_distinct_at_distinct_stamps] on [sampleBusy]: three courts and a
    zone created at the times 1, 2, 3 and 4, and two bookings submitted at
    the times 8 and 9. *)
Lemma ids_distinct_at_distinct_stamps_witness :
  let evs := sampleBusy in
  let st := afterSession evs in
  run epochDayParse 800 600 evs st /\
  creationStamps evs = [1; 2; 3; 4] /\
  submissionStamps evs = [8; 9] /\
  NoDup (creationStamps evs) /\
  NoDup (submissionStamps evs) /\
  map Element.id (elements st) = [1; 2; 3; 4] /\
  map Reservation.id (reservations st) = [8; 9] /\
  NoDup (map Element.id (elements st)) /\
  NoDup (map Reservation.id (reservations st)).
Proof.
  intros evs st.
  pose proof sampleBusy_runs as Hrun.
  assert (Hc : NoDup (creationStamps evs)).
  { change (creationStamps evs) with [1; 2; 3; 4].
    repeat (apply NoDup_cons; [simpl; intuition discriminate|]).
    apply NoDup_nil. }
  assert (Hs : NoDup (submissionStamps evs)).
  { change (submissionStamps evs) with [8; 9].
    repeat (apply NoDup_cons; [simpl; intuition discriminate|]).
    apply NoDup_nil. }
  pose proof (ids_distinct_at_distinct_stamps epochDayParse 800 600 evs st Hrun)
    as H.
  split; [exact Hrun|]. split; [reflexivity|]. split; [reflexivity|].
  split; [exact Hc|]. split; [exact Hs|].
  split; [reflexivity|]. split; [reflexivity|].
  split; [exact (proj1 H Hc) | exact (proj1 (proj2 H) Hs)].
Defined.

(** C9 fails as stated: a court and a zone created at the same clock
    reading carry the same identifier, and so do two bookings submitted at
    the same clock reading. *)
Lemma same_stamp_same_id :
  (let st := afterSession sampleCollision in
   run epochDayParse 800 600 sampleCollision st /\
   map Element.id (elements st) = [1000; 1000] /\
   ~ NoDup (map Element.id (elements st))) /\
  (let st := afterSession sampleDoubleSubmission in
   run epochDayParse 800 600 sampleDoubleSubmission st /\
   map Reservation.id (reservations st) = [8; 8] /\
   ~ NoDup (map Reservation.id (reservations st))).
Proof.
  split; intros st.
  - split; [|split].
    + apply run_of_enabled. simpl.
      repeat split; try exact (proj1 half_is_a_draw);
        exact (proj2 half_is_a_draw).
    + reflexivity.
    + change (map Element.id (elements st)) with [1000; 1000].
      intros H. inversion H as [|a l Hnot _]; subst. apply Hnot. left. reflexivity.
  - split; [|split].
    + apply run_of_enabled. simpl.
      repeat split; try exact (proj1 half_is_a_draw);
        try exact (proj2 half_is_a_draw); try discriminate;
        left; reflexivity.
    + reflexivity.
    + change (map Reservation.id (reservations st)) with [8; 8].
      intros H. inversion H as [|a l Hnot _]; subst. apply Hnot. left. reflexivity.
Qed.

(** What one event does to the reservation store: nothing, a removal, or
    the addition of the reservation of a form whose name is not empty. *)
Lemma dispatch_reservations DateParse (st : AppState) (ev : Event) :
  reservations (dispatch DateParse st ev) = reservations st \/
  (exists p, reservations (dispatch DateParse st ev) = filter p (reservations st)) \/
  (exists c f now nStart,
     blank (Form.name f) = false /\
     reservations (dispatch DateParse st ev) =
       reservations st ++ [newReservation c f now nStart]).
Proof.
  destruct ev; simpl dispatch; try (left; reflexivity).
  - destruct (PadelCourt.handleDragStart (mode st) data (zoom st) e);
      left; reflexivity.
  - destruct (GenericZone.handleDragStart (mode st) data (zoom st) e);
      left; reflexivity.
  - destruct (GenericZone.handleResizeStart data (zoom st) e direction);
      left; reflexivity.
  - destruct (pointerListener st) as [l|]; [|left; reflexivity].
    destruct (l ev) as [id changes]. left. reflexivity.
  - unfold submitReservation.
    destruct (managingState st) as [c|]; [|left; reflexivity].
    unfold formSubmit.
    destruct (blank (Form.name f)) eqn:En; [left; reflexivity|].
    destruct (blank (Form.date f) || blank (Form.startTime f)) eqn:Ed;
      simpl orb; rewrite ?Ed; [left; reflexivity|].
    destruct (handleSubmit DateParse c _ f now) as [m|r] eqn:E;
      [left; reflexivity|].
    apply handleSubmit_saved in E. destruct E as [nStart [_ ->]].
    right. right. exists c, f, now, nStart. split; [exact En | reflexivity].
  - right. left. eexists. reflexivity.
Qed.

Lemma blank_false_iff (s : string) : blank s = false <-> s <> ""%string.
Proof.
  destruct s; simpl; split; intros H; try discriminate; trivial.
  elim H; reflexivity.
Qed.

Lemma run_client_names DateParse (w h : R) (evs : list Event) (st : AppState) :
  run DateParse w h evs st ->
  forall r, In r (reservations st) -> blank (Reservation.clientName r) = false.
Proof.
  induction 1 as [|evs st ev Hrun IH Hen]; intros r Hin.
  - destruct Hin.
  - destruct (dispatch_reservations DateParse st ev)
      as [E | [[p E] | [c [f [now [nStart [Hn E]]]]]]]; rewrite E in Hin.
    + apply IH, Hin.
    + apply filter_In in Hin. apply IH, Hin.
    + apply in_app_or in Hin. destruct Hin as [Hin | [<- | []]].
      * apply IH, Hin.
      * exact Hn.
Qed.

(** C7.  The creation of a reservation checks that the client name is not
    empty.  The name input of the form is [required]: on a form whose name
    is empty the submission is refused as invalid input, [handleSubmit]
    does not run, and the state of the application, its reservation store
    included, is left as it was.  A submission that is accepted comes from
    a form whose name is not empty and stores that name.  In every
    reachable state the client name of every stored reservation is
    different from the empty string. *)
Theorem blank_name_is_refused DateParse :
  (forall (c : Element.t) (existing : list Reservation.t) (f : Form.t) (now : Z),
     blank (Form.name f) = true ->
     formSubmit DateParse c existing f now = None /\
     submissionErrorKind (formSubmit DateParse c existing f now)
       = Some InvalidInput) /\
  (forall (st : AppState) (f : Form.t) (now : Z),
     blank (Form.name f) = true ->
     dispatch DateParse st (SubmitForm f now) = st) /\
  (forall (c : Element.t) (existing : list Reservation.t) (f : Form.t) (now : Z)
          (r : Reservation.t),
     formSubmit DateParse c existing f now = Some (Saved r) ->
     Form.name f <> ""%string /\ Reservation.clientName r = Form.name f) /\
  (forall st r, reachable DateParse st -> In r (reservations st) ->
                Reservation.clientName r <> ""%string).
Proof.
  split; [|split; [|split]].
  - intros c existing f now Hn. unfold formSubmit. rewrite Hn. simpl.
    split; reflexivity.
  - intros st f now Hn. simpl. unfold submitReservation.
    destruct (managingState st) as [c|]; [|reflexivity].
    unfold formSubmit. rewrite Hn. reflexivity.
  - intros c existing f now r. unfold formSubmit.
    destruct (blank (Form.name f)) eqn:En; [discriminate|].
    destruct (blank (Form.date f) || blank (Form.startTime f)) eqn:Ed;
      simpl orb; rewrite ?Ed; [discriminate|].
    intros H. injection H as H. apply handleSubmit_saved in H.
    destruct H as [nStart [_ ->]].
    split; [apply blank_false_iff; exact En | reflexivity].
  - intros st r [w [h [evs Hrun]]] Hin.
    apply blank_false_iff. exact (run_client_names DateParse w h evs st Hrun r Hin).
Qed.

(** [blank_name_is_refused] on the form of the slot from 11:00 to 12:00
    with an empty name, submitted on [sampleManaging], and on the store
    that [sampleSession] leaves, with the booking of "Eva". *)
Lemma blank_name_is_refused_witness :
  let f := sampleForm "" "11:00" 60 "" in
  let st := afterSession (sampleSession "Eva" "") in
  blank (Form.name f) = true /\
  formSubmit epochDayParse (sampleCourt 1 1) (reservations sampleManaging) f 9
    = None /\
  submissionErrorKind
    (formSubmit epochDayParse (sampleCourt 1 1) (reservations sampleManaging) f 9)
    = Some InvalidInput /\
  dispatch epochDayParse sampleManaging (SubmitForm f 9) = sampleManaging /\
  reachable epochDayParse st /\
  map Reservation.clientName (reservations st) = ["Eva"%string] /\
  (forall r, In r (reservations st) -> Reservation.clientName r <> ""%string).
Proof.
  intros f st.
  assert (Hreach : reachable epochDayParse st).
  { exists 800%R, 600%R, (sampleSession "Eva" "").
    apply sampleSession_runs. }
  pose proof (blank_name_is_refused epochDayParse) as H.
  split; [reflexivity|].
  split; [exact (proj1 (proj1 H (sampleCourt 1 1) (reservations sampleManaging)
                          f 9 eq_refl))|].
  split; [exact (proj2 (proj1 H (sampleCourt 1 1) (reservations sampleManaging)
                          f 9 eq_refl))|].
  split; [exact (proj1 (proj2 H) sampleManaging f 9 eq_refl)|].
  split; [exact Hreach|]. split; [reflexivity|].
  intros r Hin. exact (proj2 (proj2 (proj2 H)) st r Hreach Hin).
Defined.

(** C10, as amended.  A reservation that [handleSubmit] accepts from a form
    whose deposit field is blank is stored with the deposit "0", which
    reads as zero; a deposit that was typed is stored as typed, whatever
    its sign. *)
Theorem deposit_stored_as_typed DateParse (c : Element.t)
    (existing : list Reservation.t) (f : Form.t) (now : Z) (r : Reservation.t) :
  handleSubmit DateParse c existing f now = Saved r ->
  (blank (Form.deposit f) = true ->
     Reservation.deposit r = "0"%string /\
     toNumber (Reservation.deposit r) = Some 0) /\
  (blank (Form.deposit f) = false ->
     Reservation.deposit r = Form.deposit f).
Proof.
  intros H. apply handleSubmit_saved in H. destruct H as [nStart [_ ->]].
  simpl. split; intros Hb; rewrite Hb; auto.
Qed.

(** [deposit_stored_as_typed] on the form of "Eva" with a blank deposit. *)
Lemma deposit_stored_as_typed_witness :
  let f := sampleForm "Eva" "11:00" 60 "" in
  let r := newReservation (sampleCourt 1 1) f 8 39600000 in
  handleSubmit epochDayParse (sampleCourt 1 1) [] f 8 = Saved r /\
  Reservation.deposit r = "0"%string /\
  toNumber (Reservation.deposit r) = Some 0.
Proof.
  intros f r. split; [reflexivity|].
  exact (proj1 (deposit_stored_as_typed epochDayParse (sampleCourt 1 1) [] f 8 r
                  eq_refl) eq_refl).
Defined.

(** C10 fails as stated: a booking submitted with the deposit "-5" is
    stored with that deposit, which reads as a negative number. *)
Lemma negative_deposit_is_stored :
  let st := afterSession (sampleSession "Eva" "-5") in
  reachable epochDayParse st /\
  map Reservation.deposit (reservations st) = ["-5"%string] /\
  map (fun r => toNumber (Reservation.deposit r)) (reservations st) = [Some (-5)] /\
  -5 < 0.
Proof.
  intros st. split; [|repeat split; reflexivity].
  exists 800%R, 600%R, (sampleSession "Eva" "-5"). apply sampleSession_runs.
Qed.
End StoreTheorems.

(** ** The reservation store over the runs *)

Section StoreInvariants.
Variable DateParse : string -> option Z.
Local Open Scope Z_scope.

Lemma overlap_sym (s1 e1 s2 e2 : Z) : overlap s1 e1 s2 e2 -> overlap s2 e2 s1 e1.
Proof. unfold overlap. lia. Qed.

Lemma clash_sym (a b : Reservation.t) : clash a b -> clash b a.
Proof.
  intros [Hc Ho]. split; [symmetry; exact Hc | apply overlap_sym; exact Ho].
Qed.

(** The three things a submission can do. *)
Lemma submitReservation_cases (f : Form.t) (now : Z) (st : AppState) :
  submitReservation DateParse f now st = st \/
  exists c nStart,
    managingState st = Some c /\
    blank (Form.name f) = false /\
    blank (Form.date f) = false /\
    blank (Form.startTime f) = false /\
    DateParse (Form.date f ++ "T" ++ Form.startTime f)%string = Some nStart /\
    (forall r, In r (reservations st) ->
               Reservation.courtId r = Element.id c ->
               ~ overlap nStart (nStart + Form.duration f * 60000)
                   (Reservation.start r) (Reservation.end_ r)) /\
    submitReservation DateParse f now st =
      setManagingState None
        (handleSaveReservation (newReservation c f now nStart) st).
Proof.
  unfold submitReservation.
  destruct (managingState st) as [c|] eqn:Em; [|left; reflexivity].
  unfold formSubmit.
  destruct (blank (Form.name f)) eqn:En; [left; reflexivity|].
  destruct (blank (Form.date f)) eqn:Ed; [left; reflexivity|].
  destruct (blank (Form.startTime f)) eqn:Et; [left; reflexivity|].
  simpl orb. cbv iota.
  destruct (DateParse (Form.date f ++ "T" ++ Form.startTime f)%string)
    as [nStart|] eqn:Ep.
  - rewrite (handleSubmit_scan DateParse c _ f now nStart Ed Et Ep).
    match goal with |- context [if ?b then _ else _] => destruct b eqn:Es end.
    + left. reflexivity.
    + right. exists c, nStart. repeat split; trivial.
      intros r Hin Hc. apply (proj1 (scan_false_iff _ _ _) Es).
      apply in_court_reservations. split; assumption.
  - left. unfold handleSubmit. rewrite Ed, Et, Ep. reflexivity.
Qed.

(** What one event does to the reservation store, with what the conflict
    check has established when a reservation is added. *)
Lemma dispatch_store_cases (st : AppState) (ev : Event) :
  reservations (dispatch DateParse st ev) = reservations st \/
  (exists resId,
     ev = ConfirmCancel resId /\
     reservations (dispatch DateParse st ev) =
       filter (fun r => negb (Reservation.id r =? resId)) (reservations st)) \/
  (exists c f now nStart,
     ev = SubmitForm f now /\
     managingState st = Some c /\
     blank (Form.name f) = false /\
     DateParse (Form.date f ++ "T" ++ Form.startTime f)%string = Some nStart /\
     (forall r, In r (reservations st) ->
                Reservation.courtId r = Element.id c ->
                ~ overlap nStart (nStart + Form.duration f * 60000)
                    (Reservation.start r) (Reservation.end_ r)) /\
     reservations (dispatch DateParse st ev) =
       reservations st ++ [newReservation c f now nStart]).
Proof.
  destruct ev; simpl dispatch; try (left; reflexivity).
  - destruct (PadelCourt.handleDragStart (mode st) data (zoom st) e);
      left; reflexivity.
  - destruct (GenericZone.handleDragStart (mode st) data (zoom st) e);
      left; reflexivity.
  - destruct (GenericZone.handleResizeStart data (zoom st) e direction);
      left; reflexivity.
  - destruct (pointerListener st) as [l|]; [|left; reflexivity].
    destruct (l ev) as [id changes]. left. reflexivity.
  - destruct (submitReservation_cases f now st)
      as [E | [c [nStart [Hm [Hn [Hd [Ht [Hp [Hfree E]]]]]]]]]; rewrite E.
    + left. reflexivity.
    + right. right. exists c, f, now, nStart. repeat split; trivial.
  - right. left. exists resId. split; reflexivity.
Qed.

Lemma FOP_snoc {A : Type} (R : A -> A -> Prop) (l : list A) (n : A) :
  ForallOrdPairs R l -> (forall a, In a l -> R a n) ->
  ForallOrdPairs R (l ++ [n]).
Proof.
  induction 1 as [|a l Ha Hl IH]; intros Hn; simpl.
  - constructor; constructor.
  - constructor.
    + apply Forall_app. split; [exact Ha|].
      constructor; [apply Hn; left; reflexivity | constructor].
    + apply IH. intros b Hb. apply Hn. right. exact Hb.
Qed.

Lemma FOP_filter {A : Type} (R : A -> A -> Prop) (p : A -> bool) (l : list A) :
  ForallOrdPairs R l -> ForallOrdPairs R (filter p l).
Proof.
  induction 1 as [|a l Ha Hl IH]; simpl; [constructor|].
  destruct (p a); [|exact IH].
  constructor; [|exact IH].
  apply Forall_forall. intros b Hb. apply filter_In in Hb.
  exact (proj1 (Forall_forall _ _) Ha b (proj1 Hb)).
Qed.

Lemma FOP_nth {A : Type} (R : A -> A -> Prop) (l : list A) :
  ForallOrdPairs R l ->
  forall i j a b, (i < j)%nat ->
    nth_error l i = Some a -> nth_error l j = Some b -> R a b.
Proof.
  induction 1 as [|x l Hx Hl IH]; intros i j a b Hij Hi Hj.
  - destruct i; discriminate Hi.
  - destruct j as [|j]; [lia|]. simpl in Hj.
    destruct i as [|i]; simpl in Hi.
    + injection Hi as <-.
      exact (proj1 (Forall_forall _ _) Hx b (nth_error_In _ _ Hj)).
    + apply (IH i j); trivial. lia.
Qed.

Lemma run_disjoint (w h : R) (evs : list Event) (st : AppState) :
  run DateParse w h evs st -> disjointBookings (reservations st).
Proof.
  induction 1 as [|evs st ev Hrun IH Hen].
  - constructor.
  - destruct (dispatch_store_cases st ev)
      as [E | [[resId [_ E]] | [c [f [now [nStart [_ [_ [_ [_ [Hfree E]]]]]]]]]]];
      rewrite E.
    + exact IH.
    + apply FOP_filter. exact IH.
    + apply FOP_snoc; [exact IH|].
      intros a Ha [Hc Ho]. apply (Hfree a Ha Hc).
      apply overlap_sym. exact Ho.
Qed.

(** X3.  In every state that a run reaches, two entries of the reservation
    store at different positions never book the same court at overlapping
    times. *)
Theorem bookings_never_clash (w h : R) (evs : list Event) (st : AppState)
    (i j : nat) (ri rj : Reservation.t) :
  run DateParse w h evs st ->
  i <> j ->
  nth_error (reservations st) i = Some ri ->
  nth_error (reservations st) j = Some rj ->
  ~ clash ri rj.
Proof.
  intros Hrun Hij Hi Hj Hc.
  pose proof (run_disjoint w h evs st Hrun) as Hd.
  destruct (Nat.lt_total i j) as [Hlt | [Heq | Hgt]].
  - exact (FOP_nth _ _ Hd i j ri rj Hlt Hi Hj Hc).
  - exact (Hij Heq).
  - exact (FOP_nth _ _ Hd j i rj ri Hgt Hj Hi (clash_sym _ _ Hc)).
Qed.

(** The first reservation that [getCourtStatus] tests positively is the
    only one, in a store without clashes. *)
Lemma status_of_disjoint (c t : Z) (rs : list Reservation.t) (r : Reservation.t) :
  disjointBookings rs ->
  In r rs -> Reservation.courtId r = c -> activeAt r t ->
  getCourtStatus c rs (Some t) = Some r.
Proof.
  unfold getCourtStatus, activeAt. simpl.
  induction 1 as [|a l Ha Hl IH]; intros Hin Hc Hact; [destruct Hin|].
  simpl.
  destruct ((Reservation.courtId a =? c) && (t >=? Reservation.start a) &&
            (t <? Reservation.end_ a)) eqn:E.
  - destruct Hin as [->|Hin]; [reflexivity|].
    exfalso. apply andb_true_iff in E. destruct E as [E E3].
    apply andb_true_iff in E. destruct E as [E1 E2].
    apply Z.eqb_eq in E1. apply Z.geb_le in E2. apply Z.ltb_lt in E3.
    apply (proj1 (Forall_forall _ _) Ha r Hin).
    split; [congruence | unfold overlap; lia].
  - destruct Hin as [->|Hin]; [|apply IH; assumption].
    exfalso. apply Z.eqb_eq in Hc. rewrite Hc in E.
    destruct Hact as [H1 H2].
    apply Z.geb_le in H1. apply Z.ltb_lt in H2. rewrite H1, H2 in E.
    discriminate E.
Qed.

(** X2.  In every state that a run reaches, a reservation of the store
    whose interval holds the view time is the status that [getCourtStatus]
    reports for its court: the court shows that reservation and no
    other. *)
Theorem status_is_the_active_booking (w h : R) (evs : list Event) (st : AppState)
    (r : Reservation.t) (t : Z) :
  run DateParse w h evs st ->
  In r (reservations st) ->
  activeAt r t ->
  getCourtStatus (Reservation.courtId r) (reservations st) (Some t) = Some r.
Proof.
  intros Hrun Hin Hact.
  apply status_of_disjoint; trivial.
  exact (run_disjoint w h evs st Hrun).
Qed.

(** X4.  When every submitted form carries one of the offered durations
    (60, 90 or 120 minutes), every reservation of a reached store ends
    that many minutes after it starts; in particular it starts before it
    ends. *)
Theorem stored_intervals_are_offered (w h : R) (evs : list Event)
    (st : AppState) :
  run DateParse w h evs st ->
  offeredSubmissions evs ->
  forall r, In r (reservations st) ->
    Reservation.start r < Reservation.end_ r /\
    exists d, In d offeredDurations /\
              Reservation.end_ r = Reservation.start r + d * 60000.
Proof.
  induction 1 as [|evs st ev Hrun IH Hen]; intros Hoff r Hin.
  - destruct Hin.
  - apply Forall_app in Hoff. destruct Hoff as [Hevs Hev].
    destruct (dispatch_store_cases st ev)
      as [E | [[resId [_ E]] | [c [f [now [nStart [Eev [_ [_ [_ [_ E]]]]]]]]]]];
      rewrite E in Hin.
    + exact (IH Hevs r Hin).
    + apply filter_In in Hin. exact (IH Hevs r (proj1 Hin)).
    + apply in_app_or in Hin. destruct Hin as [Hin | [<- | []]].
      * exact (IH Hevs r Hin).
      * inversion Hev as [|? ? Hd _]; subst. simpl.
        split; [|exists (Form.duration f); split; [exact Hd | reflexivity]].
        destruct Hd as [<- | [<- | [<- | []]]]; lia.
Qed.
End StoreInvariants.

(** ** Status, search and booking together *)

Section BookingTogether.
Local Open Scope Z_scope.

Lemma sampleDoubleSubmission_runs :
  run epochDayParse 800 600 sampleDoubleSubmission
      (afterSession sampleDoubleSubmission).
Proof.
  apply run_of_enabled. simpl.
  repeat split; try exact (proj1 half_is_a_draw);
    try exact (proj2 half_is_a_draw); try discriminate;
    left; reflexivity.
Qed.

(** [bookings_never_clash] on the two bookings of [sampleDoubleSubmission],
    11:00 to 12:00 and 12:00 to 13:00 on the same court. *)
Lemma bookings_never_clash_witness :
  let st := afterSession sampleDoubleSubmission in
  exists ri rj,
    nth_error (reservations st) 0 = Some ri /\
    nth_error (reservations st) 1 = Some rj /\
    Reservation.courtId ri = Reservation.courtId rj /\
    ~ clash ri rj.
Proof.
  intros st. do 2 eexists.
  split; [reflexivity|]. split; [reflexivity|]. split; [reflexivity|].
  apply (bookings_never_clash epochDayParse 800 600 sampleDoubleSubmission st
           0 1 _ _ sampleDoubleSubmission_runs);
    [intros H; discriminate H | reflexivity | reflexivity].
Defined.

(** [status_is_the_active_booking] on [sampleDoubleSubmission] at 12:00,
    the instant where the first booking ends and the second starts. *)
Lemma status_is_the_active_booking_witness :
  let st := afterSession sampleDoubleSubmission in
  let r := newReservation sampleRunCourt (sampleForm "Luz" "12:00" 60 "") 8
             43200000 in
  In r (reservations st) /\
  activeAt r 43200000 /\
  getCourtStatus 1 (reservations st) (Some 43200000) = Some r.
Proof.
  intros st r.
  assert (Hin : In r (reservations st)) by (right; left; reflexivity).
  assert (Hact : activeAt r 43200000) by (split; [discriminate | reflexivity]).
  split; [exact Hin|]. split; [exact Hact|].
  exact (status_is_the_active_booking epochDayParse 800 600
           sampleDoubleSubmission st r 43200000
           sampleDoubleSubmission_runs Hin Hact).
Defined.

(** [stored_intervals_are_offered] on [sampleSession]. *)
Lemma stored_intervals_are_offered_witness :
  let evs := sampleSession "Eva" "" in
  let st := afterSession evs in
  offeredSubmissions evs /\
  forall r, In r (reservations st) ->
    Reservation.start r < Reservation.end_ r /\
    exists d, In d offeredDurations /\
              Reservation.end_ r = Reservation.start r + d * 60000.
Proof.
  intros evs st.
  assert (Hoff : offeredSubmissions evs).
  { repeat constructor. }
  split; [exact Hoff|].
  exact (stored_intervals_are_offered epochDayParse 800 600 evs st
           (sampleSession_runs "Eva" "") Hoff).
Defined.

(** X1.  [getCourtStatus] answers with a reservation of the store that is
    of the asked court and whose interval holds the view time, start
    included and end excluded; it answers with nothing exactly when the
    store has no such reservation, and always when the view date is
    invalid.  Among several candidates it answers with the first of the
    store. *)
Theorem court_status_reads_half_open_intervals :
  (forall c rs, getCourtStatus c rs None = None) /\
  (forall c rs t r,
     getCourtStatus c rs (Some t) = Some r ->
     In r rs /\ Reservation.courtId r = c /\ activeAt r t) /\
  (forall c rs t,
     getCourtStatus c rs (Some t) = None <->
     forall r, In r rs -> Reservation.courtId r = c -> ~ activeAt r t) /\
  (forall c pre r post t,
     Reservation.courtId r = c -> activeAt r t ->
     (forall a, In a pre -> Reservation.courtId a = c -> ~ activeAt a t) ->
     getCourtStatus c (pre ++ r :: post) (Some t) = Some r).
Proof.
  assert (Htest : forall c t r,
            (Reservation.courtId r =? c) && (t >=? Reservation.start r) &&
            (t <? Reservation.end_ r) = true <->
            Reservation.courtId r = c /\ activeAt r t).
  { intros c t r. unfold activeAt.
    rewrite !andb_true_iff, Z.eqb_eq, Z.geb_le, Z.ltb_lt. tauto. }
  split; [|split; [|split]].
  - intros c rs. unfold getCourtStatus. simpl.
    induction rs as [|a rs IH]; simpl; trivial.
    rewrite andb_false_r. simpl. exact IH.
  - intros c rs t r H. unfold getCourtStatus in H. simpl in H.
    apply find_some in H. destruct H as [Hin H].
    apply Htest in H. tauto.
  - intros c rs t. unfold getCourtStatus. simpl. split.
    + intros H r Hin Hc Hact.
      pose proof (find_none _ _ H r Hin) as Hn. simpl in Hn.
      rewrite (proj2 (Htest c t r) (conj Hc Hact)) in Hn. discriminate Hn.
    + intros H.
      destruct (find _ rs) as [r|] eqn:E; trivial.
      apply find_some in E. destruct E as [Hin E]. apply Htest in E.
      elim (H r Hin (proj1 E) (proj2 E)).
  - intros c pre r post t Hc Hact Hpre. unfold getCourtStatus. simpl.
    induction pre as [|a pre IH]; simpl.
    + rewrite (proj2 (Htest c t r) (conj Hc Hact)). reflexivity.
    + destruct ((Reservation.courtId a =? c) && (t >=? Reservation.start a) &&
                (t <? Reservation.end_ a)) eqn:E.
      * apply Htest in E.
        elim (Hpre a (or_introl eq_refl) (proj1 E) (proj2 E)).
      * apply IH. intros b Hb. apply Hpre. right. exact Hb.
Qed.

(** What [handleSubmit] has checked when it accepts. *)
Lemma handleSubmit_accepts DateParse (c : Element.t)
    (existing : list Reservation.t) (f : Form.t) (now : Z) (r : Reservation.t) :
  handleSubmit DateParse c existing f now = Saved r ->
  blank (Form.date f) = false /\
  blank (Form.startTime f) = false /\
  exists nStart,
    DateParse (Form.date f ++ "T" ++ Form.startTime f)%string = Some nStart /\
    r = newReservation c f now nStart /\
    forall a, In a existing ->
      ~ overlap nStart (nStart + Form.duration f * 60000)
          (Reservation.start a) (Reservation.end_ a).
Proof.
  intros H.
  destruct (blank (Form.date f) || blank (Form.startTime f)) eqn:Eb.
  { unfold handleSubmit in H. rewrite Eb in H. discriminate H. }
  destruct (orb_false_elim _ _ Eb) as [Hd Ht].
  destruct (DateParse (Form.date f ++ "T" ++ Form.startTime f)%string)
    as [nStart|] eqn:Ep.
  - rewrite (handleSubmit_scan DateParse c existing f now nStart Hd Ht Ep) in H.
    match type of H with (if ?b then _ else _) = _ => destruct b eqn:Es end;
      [discriminate H|].
    injection H as <-. repeat split; trivial.
    exists nStart. repeat split; trivial.
    exact (proj1 (scan_false_iff _ _ _) Es).
  - unfold handleSubmit in H. rewrite Eb, Ep in H. discriminate H.
Qed.

(** X5.  Once a form of positive duration has been accepted for a court,
    the same form submitted again for that court, at any later clock
    reading, fails with the conflict toast and changes nothing. *)
Theorem rebooking_is_rejected DateParse (st : AppState) (c : Element.t)
    (f : Form.t) (now now' : Z) (r : Reservation.t) :
  managingState st = Some c ->
  blank (Form.name f) = false ->
  0 < Form.duration f ->
  handleSubmit DateParse c
    (filter (fun a => Reservation.courtId a =? Element.id c) (reservations st))
    f now = Saved r ->
  let st1 := dispatch DateParse st (SubmitForm f now) in
  let st2 := dispatch DateParse st1 (OpenModal c) in
  reservations st1 = reservations st ++ [r] /\
  handleSubmit DateParse c
    (filter (fun a => Reservation.courtId a =? Element.id c) (reservations st2))
    f now' = Rejected MsgConflict /\
  dispatch DateParse st2 (SubmitForm f now') = st2.
Proof.
  intros Hm Hn Hdur Hsaved st1 st2.
  destruct (handleSubmit_accepts _ _ _ _ _ _ Hsaved)
    as [Hd [Ht [nStart [Hp [Hr _]]]]].
  assert (E1 : reservations st1 = reservations st ++ [r]).
  { unfold st1. simpl. unfold submitReservation, formSubmit.
    rewrite Hm, Hn, Hd, Ht, Hsaved. reflexivity. }
  assert (Hconf : handleSubmit DateParse c
            (filter (fun a => Reservation.courtId a =? Element.id c)
                    (reservations st2)) f now' = Rejected MsgConflict).
  { rewrite (handleSubmit_scan DateParse c _ f now' nStart Hd Ht Hp).
    match goal with |- (if ?b then _ else _) = _ =>
      assert (Hex : b = true); [|rewrite Hex; reflexivity] end.
    apply scan_true_iff. exists r. split.
    - apply in_court_reservations. split.
      + change (reservations st2) with (reservations st1). rewrite E1.
        apply in_or_app. right. left. reflexivity.
      + rewrite Hr. reflexivity.
    - rewrite Hr. unfold overlap. simpl. lia. }
  split; [exact E1|]. split; [exact Hconf|].
  simpl. unfold submitReservation, formSubmit.
  change (managingState st2) with (Some c).
  rewrite Hn, Hd, Ht, Hconf. reflexivity.
Qed.

(** [rebooking_is_rejected] on [sampleManaging], for the free slot from
    11:00 to 12:00. *)
Lemma rebooking_is_rejected_witness :
  let f := sampleForm "Eva" "11:00" 60 "" in
  let c := sampleCourt 1 1 in
  let st1 := dispatch epochDayParse sampleManaging (SubmitForm f 8) in
  let st2 := dispatch epochDayParse st1 (OpenModal c) in
  reservations st1 =
    reservations sampleManaging ++ [newReservation c f 8 39600000] /\
  handleSubmit epochDayParse c
    (filter (fun a => Reservation.courtId a =? Element.id c) (reservations st2))
    f 9 = Rejected MsgConflict /\
  dispatch epochDayParse st2 (SubmitForm f 9) = st2.
Proof.
  intros f c.
  exact (rebooking_is_rejected epochDayParse sampleManaging c f 8 9
           (newReservation c f 8 39600000) eq_refl eq_refl eq_refl eq_refl).
Defined.

(** X6.  In a state that a run reaches, once a reservation has been
    cancelled, a form for the same court, the same start and the same
    length is accepted: cancelling frees the slot. *)
Theorem cancellation_frees_the_slot DateParse (w h : R) (evs : list Event)
    (st : AppState) (r : Reservation.t) (c : Element.t) (f : Form.t) (now : Z) :
  run DateParse w h evs st ->
  In r (reservations st) ->
  Element.id c = Reservation.courtId r ->
  blank (Form.date f) = false ->
  blank (Form.startTime f) = false ->
  DateParse (Form.date f ++ "T" ++ Form.startTime f)%string =
    Some (Reservation.start r) ->
  Reservation.start r + Form.duration f * 60000 = Reservation.end_ r ->
  let st' := dispatch DateParse st (ConfirmCancel (Reservation.id r)) in
  ~ In r (reservations st') /\
  handleSubmit DateParse c
    (filter (fun a => Reservation.courtId a =? Element.id c) (reservations st'))
    f now = Saved (newReservation c f now (Reservation.start r)).
Proof.
  intros Hrun Hin Hc Hd Ht Hp Hlen st'.
  pose proof (run_disjoint DateParse w h evs st Hrun) as Hdis.
  split.
  - simpl. intros H. apply filter_In in H. destruct H as [_ H].
    rewrite Z.eqb_refl in H. discriminate H.
  - rewrite (handleSubmit_scan DateParse c _ f now _ Hd Ht Hp).
    match goal with |- (if ?b then _ else _) = _ =>
      assert (Hex : b = false); [|rewrite Hex; reflexivity] end.
    apply scan_false_iff. intros a Ha Ho.
    apply in_court_reservations in Ha. destruct Ha as [Ha Hca].
    simpl in Ha. apply filter_In in Ha. destruct Ha as [Ha Hid].
    rewrite Hlen in Ho.
    destruct (ForallOrdPairs_In Hdis a r Ha Hin) as [E | [H | H]].
    + subst a. rewrite Z.eqb_refl in Hid. discriminate Hid.
    + apply H. split; [congruence | apply overlap_sym; exact Ho].
    + apply H. split; [congruence | exact Ho].
Qed.

(** [cancellation_frees_the_slot] on the booking of [sampleSession]. *)
Lemma cancellation_frees_the_slot_witness :
  let st := afterSession (sampleSession "Eva" "") in
  let f := sampleForm "Luz" "11:00" 60 "" in
  let r := newReservation sampleRunCourt (sampleForm "Eva" "11:00" 60 "") 8
             39600000 in
  let st' := dispatch epochDayParse st (ConfirmCancel 8) in
  In r (reservations st) /\
  ~ In r (reservations st') /\
  handleSubmit epochDayParse sampleRunCourt
    (filter (fun a => Reservation.courtId a =? Element.id sampleRunCourt)
            (reservations st'))
    f 9 = Saved (newReservation sampleRunCourt f 9 39600000).
Proof.
  intros st f r st'.
  assert (Hin : In r (reservations st)) by (left; reflexivity).
  split; [exact Hin|].
  exact (cancellation_frees_the_slot epochDayParse 800 600
           (sampleSession "Eva" "") st r sampleRunCourt f 9
           (sampleSession_runs "Eva" "") Hin eq_refl eq_refl eq_refl eq_refl
           eq_refl).
Defined.

(** Membership in the result of the search, for a readable time. *)
Lemma available_iff DateParse (els : list Element.t) (rs : list Reservation.t)
    (searchDate searchTime : string) (duration searchStart : Z) (c : Element.t) :
  blank searchDate = false ->
  blank searchTime = false ->
  DateParse (searchDate ++ "T" ++ searchTime)%string = Some searchStart ->
  (In c (getAvailableCourts DateParse els rs searchDate searchTime duration) <->
   In c els /\ Element.type c = Court /\
   forall r, In r rs -> Reservation.courtId r = Element.id c ->
             ~ overlap searchStart (searchStart + duration * 60000)
                 (Reservation.start r) (Reservation.end_ r)).
Proof.
  intros Hd Ht Hp. unfold getAvailableCourts. rewrite Hd, Ht, Hp.
  simpl orb. cbv iota.
  rewrite filter_In, filter_In, negb_true_iff.
  rewrite <- not_true_iff_false, search_conflict_iff.
  split.
  - intros [[Hin Hc] Hfree]. repeat split; trivial.
    + destruct (Element.type c); [reflexivity | discriminate].
    + intros r Hr Hcr Ho. apply Hfree. exists r. auto.
  - intros [Hin [Hc Hfree]]. repeat split; trivial.
    + rewrite Hc. reflexivity.
    + intros [r [Hr [Hcr Ho]]]. exact (Hfree r Hr Hcr Ho).
Qed.

(** X7.  For a court of the layout and a readable date and time, the
    search lists the court exactly when the booking form, filled with the
    same date, time and duration, is accepted for that court: the search
    and the conflict check never disagree. *)
Theorem search_agrees_with_booking DateParse (els : list Element.t)
    (rs : list Reservation.t) (c : Element.t) (f : Form.t) (now nStart : Z) :
  In c els ->
  Element.type c = Court ->
  blank (Form.date f) = false ->
  blank (Form.startTime f) = false ->
  DateParse (Form.date f ++ "T" ++ Form.startTime f)%string = Some nStart ->
  (In c (getAvailableCourts DateParse els rs (Form.date f) (Form.startTime f)
           (Form.duration f)) <->
   handleSubmit DateParse c
     (filter (fun r => Reservation.courtId r =? Element.id c) rs) f now =
     Saved (newReservation c f now nStart)).
Proof.
  intros Hin Hc Hd Ht Hp.
  rewrite (available_iff DateParse els rs _ _ _ nStart c Hd Ht Hp).
  rewrite (handleSubmit_scan DateParse c _ f now nStart Hd Ht Hp).
  match goal with |- context [if ?b then _ else _] => destruct b eqn:Es end.
  - apply scan_true_iff in Es. destruct Es as [r [Hr Ho]].
    apply in_court_reservations in Hr. destruct Hr as [Hr Hcr].
    split; [|discriminate].
    intros [_ [_ Hfree]]. elim (Hfree r Hr Hcr Ho).
  - split; [reflexivity|]. intros _. repeat split; trivial.
    intros r Hr Hcr. apply (proj1 (scan_false_iff _ _ _) Es).
    apply in_court_reservations. split; assumption.
Qed.

(** [search_agrees_with_booking] on [sampleLayout]: the first court, booked
    from 14:00 to 15:30, at 15:30 for 60 minutes. *)
Lemma search_agrees_with_booking_witness :
  let f := sampleForm "Eva" "15:30" 60 "" in
  let c := sampleCourt 1 1 in
  In c (getAvailableCourts epochDayParse sampleLayout sampleBookings
          (Form.date f) (Form.startTime f) (Form.duration f)) <->
  handleSubmit epochDayParse c
    (filter (fun r => Reservation.courtId r =? Element.id c) sampleBookings)
    f 9 = Saved (newReservation c f 9 55800000).
Proof.
  intros f c.
  exact (search_agrees_with_booking epochDayParse sampleLayout sampleBookings
           c f 9 55800000 (or_introl eq_refl) eq_refl eq_refl eq_refl eq_refl).
Defined.

(** X8.  Without a search date or a search time the search lists nothing;
    with a date and a time that cannot be read it lists every court of the
    layout, booked or not. *)
Theorem search_without_a_readable_time DateParse (els : list Element.t)
    (rs : list Reservation.t) (searchDate searchTime : string) (duration : Z) :
  (blank searchDate = true \/ blank searchTime = true ->
   getAvailableCourts DateParse els rs searchDate searchTime duration = []) /\
  (blank searchDate = false -> blank searchTime = false ->
   DateParse (searchDate ++ "T" ++ searchTime)%string = None ->
   getAvailableCourts DateParse els rs searchDate searchTime duration =
     filter (fun el => isCourt (Element.type el)) els).
Proof.
  split.
  - intros [H|H]; unfold getAvailableCourts; rewrite H;
      [|rewrite orb_true_r]; reflexivity.
  - intros Hd Ht Hp. unfold getAvailableCourts. rewrite Hd, Ht, Hp.
    simpl orb. cbv iota.
    generalize (filter (fun el => isCourt (Element.type el)) els) as courts.
    intros courts.
    match goal with |- filter ?p _ = _ =>
      assert (Hall : forall c, p c = true) end.
    { intros c. apply negb_true_iff.
      induction rs as [|r rs IH]; simpl; trivial.
      destruct (negb (Reservation.courtId r =? Element.id c)); simpl; exact IH. }
    induction courts as [|c courts IH]; [reflexivity|].
    cbn [filter]. rewrite Hall. f_equal. exact IH.
Qed.

(** [search_without_a_readable_time] on [sampleLayout] at the time "25:00",
    which [epochDayParse] does not read: the booked court is listed. *)
Lemma search_without_a_readable_time_witness :
  getAvailableCourts epochDayParse sampleLayout
    [sampleBooking 7 1 0 0 23 59] "1970-01-01" "25:00" 60 =
    filter (fun el => isCourt (Element.type el)) sampleLayout.
Proof.
  exact (proj2 (search_without_a_readable_time epochDayParse sampleLayout
                  [sampleBooking 7 1 0 0 23 59] "1970-01-01" "25:00" 60)
           eq_refl eq_refl eq_refl).
Defined.

(** X10.  More reservations never make a court available: when every
    reservation of a store [rs] is also in a store [rs'], a court that the
    search lists over [rs'] is listed over [rs], for the same search. *)
Theorem availability_shrinks_with_bookings DateParse (els : list Element.t)
    (rs rs' : list Reservation.t) (searchDate searchTime : string)
    (duration : Z) (c : Element.t) :
  incl rs rs' ->
  In c (getAvailableCourts DateParse els rs' searchDate searchTime duration) ->
  In c (getAvailableCourts DateParse els rs searchDate searchTime duration).
Proof.
  intros Hincl. unfold getAvailableCourts.
  destruct (blank searchDate || blank searchTime); [trivial|].
  cbv zeta. rewrite !filter_In, !negb_true_iff.
  intros [Hin H]. split; [exact Hin|].
  rewrite <- not_true_iff_false in *. intros Hex. apply H.
  apply existsb_exists in Hex. destruct Hex as [r [Hr Hp]].
  apply existsb_exists. exists r. split; [apply Hincl; exact Hr | exact Hp].
Qed.

(** [availability_shrinks_with_bookings] on [sampleLayout] at 15:30, from
    the store [sampleBookings] to the empty store. *)
Lemma availability_shrinks_with_bookings_witness :
  incl [] sampleBookings /\
  In (sampleCourt 1 1)
     (getAvailableCourts epochDayParse sampleLayout [] "1970-01-01" "15:30" 30).
Proof.
  assert (Hincl : incl [] sampleBookings) by (intros a []).
  split; [exact Hincl|].
  apply (availability_shrinks_with_bookings epochDayParse sampleLayout []
           sampleBookings "1970-01-01" "15:30" 30 (sampleCourt 1 1) Hincl).
  left. reflexivity.
Defined.

(** X9.  In a state that a run reaches, once a form of positive duration
    has been accepted for a court, the court shows the new reservation at
    every instant of its interval, and the search for the same date, time
    and duration no longer lists the court. *)
Theorem booked_court_is_occupied DateParse (w h : R) (evs : list Event)
    (st : AppState) (c : Element.t) (f : Form.t) (now : Z) (r : Reservation.t) :
  run DateParse w h evs st ->
  managingState st = Some c ->
  blank (Form.name f) = false ->
  0 < Form.duration f ->
  handleSubmit DateParse c
    (filter (fun a => Reservation.courtId a =? Element.id c) (reservations st))
    f now = Saved r ->
  let st' := dispatch DateParse st (SubmitForm f now) in
  (forall t, activeAt r t ->
     getCourtStatus (Element.id c) (reservations st') (Some t) = Some r) /\
  activeAt r (Reservation.start r) /\
  ~ In c (getAvailableCourts DateParse (elements st') (reservations st')
            (Form.date f) (Form.startTime f) (Form.duration f)).
Proof.
  intros Hrun Hm Hn Hdur Hsaved st'.
  destruct (handleSubmit_accepts _ _ _ _ _ _ Hsaved)
    as [Hd [Ht [nStart [Hp [Hr _]]]]].
  assert (E : reservations st' = reservations st ++ [r]).
  { unfold st'. simpl. unfold submitReservation, formSubmit.
    rewrite Hm, Hn, Hd, Ht, Hsaved. reflexivity. }
  assert (Hrun' : run DateParse w h (evs ++ [SubmitForm f now]) st').
  { apply run_snoc; [exact Hrun|]. simpl. rewrite Hm. discriminate. }
  assert (Hin : In r (reservations st')).
  { rewrite E. apply in_or_app. right. left. reflexivity. }
  split; [|split].
  - intros t Hact.
    replace (Element.id c) with (Reservation.courtId r)
      by (rewrite Hr; reflexivity).
    apply status_of_disjoint; trivial.
    exact (run_disjoint DateParse w h _ st' Hrun').
  - rewrite Hr. unfold activeAt. simpl. lia.
  - intros Hav.
    apply (available_iff DateParse _ _ _ _ _ nStart c Hd Ht Hp) in Hav.
    destruct Hav as [_ [_ Hfree]].
    apply (Hfree r Hin); [rewrite Hr; reflexivity|].
    rewrite Hr. unfold overlap. simpl. lia.
Qed.

(** [booked_court_is_occupied] on the last step of [sampleSession]. *)
Lemma booked_court_is_occupied_witness :
  let f := sampleForm "Eva" "11:00" 60 "" in
  let evs := [AddCourt COLORS.turf.blue 1 (1 / 2) (1 / 2); SwitchMode manage;
              OpenModal sampleRunCourt] in
  let st := afterSession evs in
  let r := newReservation sampleRunCourt f 8 39600000 in
  let st' := dispatch epochDayParse st (SubmitForm f 8) in
  (forall t, activeAt r t ->
     getCourtStatus (Element.id sampleRunCourt) (reservations st') (Some t)
       = Some r) /\
  activeAt r (Reservation.start r) /\
  ~ In sampleRunCourt
       (getAvailableCourts epochDayParse (elements st') (reservations st')
          (Form.date f) (Form.startTime f) (Form.duration f)).
Proof.
  intros f evs st r.
  assert (Hrun : run epochDayParse 800 600 evs st).
  { apply run_of_enabled. simpl.
    repeat split; try exact (proj1 half_is_a_draw);
      try exact (proj2 half_is_a_draw); try discriminate.
    left. reflexivity. }
  exact (booked_court_is_occupied epochDayParse 800 600 evs st sampleRunCourt
           f 8 r Hrun eq_refl eq_refl eq_refl eq_refl).
Defined.
End BookingTogether.

(** ** The layout over the runs *)

Section LayoutTogether.
Variable DateParse : string -> option Z.
Local Open Scope R_scope.

(** What one event does to the elements: nothing, an update in place that
    keeps identifier, type, colour and label of every element, a deletion,
    a clearing, or the addition of a fresh court or zone at the end. *)
Lemma dispatch_layout_cases (st : AppState) (ev : Event) :
  elements (dispatch DateParse st ev) = elements st \/
  (exists f : Element.t -> Element.t,
     (forall el, f el = el \/ f el = rotated el \/
                 exists l e, pointerListener st = Some l /\
                             f el = spread el (snd (l e))) /\
     elements (dispatch DateParse st ev) = map f (elements st)) \/
  (exists id,
     ev = Delete id /\
     elements (dispatch DateParse st ev) =
       filter (fun el => negb (Element.id el =? id)%Z) (elements st)) \/
  (ev = ClearLayout /\ elements (dispatch DateParse st ev) = []) \/
  (exists el,
     elements (dispatch DateParse st ev) = elements st ++ [el] /\
     Element.rotation el = 0 /\
     ((exists color now rnd1 rnd2,
         ev = AddCourt color now rnd1 rnd2 /\
         Element.type el = Court /\ Element.id el = now /\
         Element.color el = Some color /\
         Element.label el =
           Some (Z.of_nat (List.length
                   (filter (fun e => isCourt (Element.type e)) (elements st)))
                 + 1)%Z /\
         Element.x el = fst (containerSize st) / 2 - COURT_WIDTH_PX / 2
                        + (rnd1 * 40 - 20) /\
         Element.y el = snd (containerSize st) / 2 - COURT_HEIGHT_PX / 2
                        + (rnd2 * 40 - 20)) \/
      (exists now,
         ev = AddZone now /\
         Element.type el = Zone /\ Element.id el = now /\
         Element.label el = None /\
         Element.width el = Some (10 * SCALE) /\
         Element.height el = Some (5 * SCALE)))).
Proof.
  destruct ev; simpl dispatch; try (left; reflexivity).
  - right. right. right. right. eexists. split; [reflexivity|].
    split; [reflexivity|]. left. exists color, now, rnd1, rnd2.
    repeat split; reflexivity.
  - right. right. right. right. eexists. split; [reflexivity|].
    split; [reflexivity|]. right. exists now. repeat split; reflexivity.
  - right. right. right. left. split; reflexivity.
  - right. left.
    exists (fun el => if (Element.id el =? id)%Z then rotated el else el).
    split; [|reflexivity].
    intros el. destruct (Element.id el =? id)%Z; auto.
  - right. right. left. exists id. split; reflexivity.
  - destruct (PadelCourt.handleDragStart (mode st) data (zoom st) e);
      left; reflexivity.
  - destruct (GenericZone.handleDragStart (mode st) data (zoom st) e);
      left; reflexivity.
  - destruct (GenericZone.handleResizeStart data (zoom st) e direction);
      left; reflexivity.
  - destruct (pointerListener st) as [l|] eqn:El; [|left; reflexivity].
    destruct (l ev) as [id changes] eqn:E.
    right. left.
    exists (fun el => if (Element.id el =? id)%Z then spread el changes else el).
    split; [|reflexivity].
    intros el. destruct (Element.id el =? id)%Z; auto.
    right. right. exists l, ev. rewrite E. split; reflexivity.
  - unfold submitReservation.
    destruct (managingState st) as [c|]; [|left; reflexivity].
    destruct (formSubmit DateParse c _ f now) as [[m|r]|]; left; reflexivity.
Qed.

Lemma rotated_fields (el : Element.t) :
  Element.id (rotated el) = Element.id el /\
  Element.type (rotated el) = Element.type el /\
  Element.color (rotated el) = Element.color el /\
  Element.label (rotated el) = Element.label el /\
  quarterTurned (rotated el).
Proof.
  repeat split. unfold quarterTurned, rotated. simpl.
  destruct (Req_dec_T (Element.rotation el) 0); auto.
Qed.

Lemma run_layout_shape (w h : R) (evs : list Event) (st : AppState) :
  run DateParse w h evs st ->
  forall el, In el (elements st) ->
    quarterTurned el /\ (Element.type el = Court -> labelled el).
Proof.
  induction 1 as [|evs st ev Hrun IH Hen]; intros el Hin.
  - destruct Hin.
  - destruct (dispatch_layout_cases st ev)
      as [E | [[f [Hf E]] | [[id [_ E]] | [[_ E] | [n [E [Hrot Hnew]]]]]]];
      rewrite E in Hin.
    + exact (IH el Hin).
    + apply in_map_iff in Hin. destruct Hin as [el0 [<- Hin0]].
      destruct (IH el0 Hin0) as [Hq Hl].
      destruct (Hf el0) as [-> | [-> | [l [e [_ ->]]]]].
      * split; assumption.
      * split; [apply rotated_fields | exact Hl].
      * split; [exact Hq | exact Hl].
    + apply filter_In in Hin. exact (IH el (proj1 Hin)).
    + destruct Hin.
    + apply in_app_or in Hin. destruct Hin as [Hin | [<- | []]].
      * exact (IH el Hin).
      * split; [left; exact Hrot|].
        intros Hc.
        destruct Hnew as [[color [now [r1 [r2 [_ [_ [_ [Hcol [Hlab _]]]]]]]]]
                         | [now [_ [Hz _]]]].
        -- split; [rewrite Hcol; discriminate|].
           eexists. split; [exact Hlab | lia].
        -- rewrite Hz in Hc. discriminate Hc.
Qed.

(** X13.  In every state that a run reaches, every element of the layout
    is turned by 0 or by 90 degrees, every court carries a colour and a
    label that is at least 1, and every zone carries a width and a height
    that are at least [MIN_SIZE_PX]. *)
Theorem layout_is_well_formed (w h : R) (evs : list Event) (st : AppState)
    (el : Element.t) :
  run DateParse w h evs st ->
  In el (elements st) ->
  quarterTurned el /\
  (Element.type el = Court -> labelled el) /\
  (Element.type el = Zone -> sized el).
Proof.
  intros Hrun Hin.
  destruct (run_layout_shape w h evs st Hrun el Hin) as [Hq Hl].
  split; [exact Hq|]. split; [exact Hl|].
  apply (run_invariant DateParse w h evs st Hrun). exact Hin.
Qed.

Lemma rotated_twice (el : Element.t) : quarterTurned el -> rotated (rotated el) = el.
Proof.
  intros Hq. destruct el as [i t x y r c lb wd ht].
  unfold quarterTurned in Hq. simpl in Hq. unfold rotated. simpl.
  f_equal.
  destruct Hq as [-> | ->].
  - destruct (Req_dec_T 0 0) as [_|H]; [|elim H; reflexivity].
    destruct (Req_dec_T 90 0) as [H|_]; [lra | reflexivity].
  - destruct (Req_dec_T 90 0) as [H|_]; [lra|].
    destruct (Req_dec_T 0 0) as [_|H]; [reflexivity | elim H; reflexivity].
Qed.

(** X14.  In every state that a run reaches, rotating an element twice
    gives back the layout as it was; the other elements are never
    touched. *)
Theorem rotating_twice_restores (w h : R) (evs : list Event) (st : AppState)
    (id : Z) :
  run DateParse w h evs st ->
  elements (rotateElement id (rotateElement id st)) = elements st /\
  forall el, In el (elements st) -> Element.id el <> id ->
             In el (elements (rotateElement id st)).
Proof.
  intros Hrun. split.
  - unfold rotateElement. simpl. rewrite map_map.
    rewrite <- (map_id (elements st)) at 2.
    apply map_ext_in. intros el Hin.
    destruct (Element.id el =? id)%Z eqn:E.
    + simpl. rewrite E. apply rotated_twice.
      exact (proj1 (run_layout_shape w h evs st Hrun el Hin)).
    + rewrite E. reflexivity.
  - intros el Hin Hid. unfold rotateElement. simpl. apply in_map_iff.
    exists el. split; [|exact Hin].
    apply Z.eqb_neq in Hid. rewrite Hid. reflexivity.
Qed.

Lemma sampleDesign_runs :
  run epochDayParse 800 600 sampleDesign (afterSession sampleDesign).
Proof.
  apply run_of_enabled. simpl.
  repeat split; try exact (proj1 half_is_a_draw);
    try exact (proj2 half_is_a_draw); try discriminate.
  - right. left. reflexivity.
  - eexists. split; [right; left; reflexivity | reflexivity].
Qed.

End LayoutTogether.

(** [layout_is_well_formed] on the zone of [sampleDesign], which was
    dragged and rotated. *)
Lemma layout_is_well_formed_witness :
  let st := afterSession sampleDesign in
  exists el,
    nth_error (elements st) 1 = Some el /\
    Element.type el = Zone /\
    quarterTurned el /\
    (Element.type el = Court -> labelled el) /\
    (Element.type el = Zone -> sized el).
Proof.
  intros st. eexists. split; [reflexivity|]. split; [reflexivity|].
  apply (layout_is_well_formed epochDayParse 800 600 sampleDesign st _
           sampleDesign_runs).
  right. left. reflexivity.
Defined.

(** [rotating_twice_restores] on [sampleDesign] and its zone. *)
Lemma rotating_twice_restores_witness :
  let st := afterSession sampleDesign in
  elements (rotateElement 2 (rotateElement 2 st)) = elements st /\
  forall el, In el (elements st) -> Element.id el <> 2%Z ->
             In el (elements (rotateElement 2 st)).
Proof.
  exact (rotating_twice_restores epochDayParse 800 600 sampleDesign
           (afterSession sampleDesign) 2 sampleDesign_runs).
Defined.

Section PointerListeners.
Local Open Scope R_scope.

Lemma drag_listener_steady
    (handler : Mode -> Element.t -> R -> PointerEvent.t -> option Listener)
    (m : Mode) (data : Element.t) (z : R) (e : PointerEvent.t) (l : Listener) :
  handler = PadelCourt.handleDragStart \/ handler = GenericZone.handleDragStart ->
  handler m data z e = Some l -> steady l.
Proof.
  intros [-> | ->] H;
    unfold PadelCourt.handleDragStart, GenericZone.handleDragStart in H;
    destruct (negb (isDesign m)); try discriminate;
    injection H as <-; intros ev ev'; split; try reflexivity;
    repeat split; simpl; intros Hs; try exact Hs; discriminate.
Qed.

Lemma resize_listener_steady (data : Element.t) (z : R) (e : PointerEvent.t)
    (direction : string) (l : Listener) :
  GenericZone.handleResizeStart data z e direction = Some l -> steady l.
Proof.
  unfold GenericZone.handleResizeStart.
  destruct (Element.width data) as [sw|]; [|discriminate].
  destruct (Element.height data) as [sh|]; [|discriminate].
  intros H. injection H as <-. intros ev ev'.
  destruct (includes "e" direction), (includes "w" direction),
           (includes "s" direction), (includes "n" direction);
    (split; [reflexivity|]); repeat split; simpl; intros _; discriminate.
Qed.

Lemma spread_covered (el : Element.t) (ch1 ch2 : Changes.t) :
  coveredBy ch1 ch2 -> spread (spread el ch1) ch2 = spread el ch2.
Proof.
  destruct ch1 as [x1 y1 w1 h1], ch2 as [x2 y2 w2 h2].
  unfold coveredBy, spread. simpl. intros [Hx [Hy [Hw Hh]]].
  f_equal.
  - destruct x2; trivial. destruct x1; trivial. elim Hx; [discriminate | reflexivity].
  - destruct y2; trivial. destruct y1; trivial. elim Hy; [discriminate | reflexivity].
  - destruct w2; trivial. destruct w1; trivial. elim Hw; [discriminate | reflexivity].
  - destruct h2; trivial. destruct h1; trivial. elim Hh; [discriminate | reflexivity].
Qed.

Lemma registered_steady (l : Listener) : registered l -> steady l.
Proof.
  intros [[m [data [z [e H]]]] | [[m [data [z [e H]]]] | [data [z [e [d H]]]]]].
  - exact (drag_listener_steady PadelCourt.handleDragStart _ _ _ _ _
             (or_introl eq_refl) H).
  - exact (drag_listener_steady GenericZone.handleDragStart _ _ _ _ _
             (or_intror eq_refl) H).
  - exact (resize_listener_steady _ _ _ _ _ H).
Qed.

Lemma spread_noChanges (el : Element.t) : spread el noChanges = el.
Proof. destruct el. reflexivity. Qed.

Lemma spread_merge (el : Element.t) (c1 c2 : Changes.t) :
  spread (spread el c1) c2 = spread el (mergeChanges c1 c2).
Proof.
  destruct c1 as [x1 y1 w1 h1], c2 as [x2 y2 w2 h2]. unfold spread. simpl.
  f_equal; [destruct x2 | destruct y2 | destruct w2 | destruct h2]; reflexivity.
Qed.

Lemma merge_noChanges_l (c : Changes.t) : mergeChanges noChanges c = c.
Proof.
  destruct c as [x y w h]. unfold mergeChanges. simpl.
  f_equal; [destruct x | destruct y | destruct w | destruct h]; reflexivity.
Qed.

Lemma merge_assoc (c1 c2 c3 : Changes.t) :
  mergeChanges (mergeChanges c1 c2) c3 = mergeChanges c1 (mergeChanges c2 c3).
Proof.
  destruct c1 as [x1 y1 w1 h1], c2 as [x2 y2 w2 h2], c3 as [x3 y3 w3 h3].
  unfold mergeChanges. simpl.
  f_equal; [destruct x3 | destruct y3 | destruct w3 | destruct h3]; reflexivity.
Qed.

Lemma merge_covered (c1 c2 : Changes.t) :
  coveredBy c1 c2 -> mergeChanges c1 c2 = c2.
Proof.
  destruct c1 as [x1 y1 w1 h1], c2 as [x2 y2 w2 h2].
  unfold coveredBy, mergeChanges. simpl. intros [Hx [Hy [Hw Hh]]].
  f_equal.
  - destruct x2; trivial. destruct x1; trivial. elim Hx; [discriminate | reflexivity].
  - destruct y2; trivial. destruct y1; trivial. elim Hy; [discriminate | reflexivity].
  - destruct w2; trivial. destruct w1; trivial. elim Hw; [discriminate | reflexivity].
  - destruct h2; trivial. destruct h1; trivial. elim Hh; [discriminate | reflexivity].
Qed.

Lemma covered_merge (a1 a2 c1 c2 : Changes.t) :
  coveredBy a1 a2 -> coveredBy c1 c2 ->
  coveredBy (mergeChanges a1 c1) (mergeChanges a2 c2).
Proof.
  destruct a1 as [ax1 ay1 aw1 ah1], a2 as [ax2 ay2 aw2 ah2],
           c1 as [x1 y1 w1 h1], c2 as [x2 y2 w2 h2].
  unfold coveredBy, mergeChanges. simpl.
  intros [Ax [Ay [Aw Ah]]] [Hx [Hy [Hw Hh]]].
  split; [|split; [|split]].
  - destruct x2; [discriminate|]. destruct x1; [|exact Ax].
    intros _. exfalso. apply Hx; [discriminate | reflexivity].
  - destruct y2; [discriminate|]. destruct y1; [|exact Ay].
    intros _. exfalso. apply Hy; [discriminate | reflexivity].
  - destruct w2; [discriminate|]. destruct w1; [|exact Aw].
    intros _. exfalso. apply Hw; [discriminate | reflexivity].
  - destruct h2; [discriminate|]. destruct h1; [|exact Ah].
    intros _. exfalso. apply Hh; [discriminate | reflexivity].
Qed.

Lemma runListeners_map (listeners : list Listener) (ev : PointerEvent.t)
    (els : list Element.t) :
  runListeners listeners ev els = map (onElement listeners ev) els.
Proof.
  revert els. induction listeners as [|l ls IH]; intros els.
  - unfold runListeners, onElement. simpl. symmetry. apply map_id.
  - unfold runListeners, onElement in *. simpl. rewrite IH.
    destruct (l ev) as [id changes]. rewrite map_map. reflexivity.
Qed.

Lemma onElement_id (listeners : list Listener) (ev : PointerEvent.t)
    (el : Element.t) (acc : Changes.t) :
  onElement listeners ev (spread el acc) =
  spread el (changesFor (Element.id el) listeners ev acc).
Proof.
  revert acc. induction listeners as [|l ls IH]; intros acc.
  - reflexivity.
  - unfold onElement, changesFor in *. simpl.
    destruct (l ev) as [id changes].
    destruct (Element.id el =? id)%Z.
    + rewrite spread_merge. apply IH.
    + apply IH.
Qed.

Lemma changesFor_acc (i : Z) (listeners : list Listener) (ev : PointerEvent.t)
    (acc : Changes.t) :
  changesFor i listeners ev acc =
  mergeChanges acc (changesFor i listeners ev noChanges).
Proof.
  revert acc. induction listeners as [|l ls IH]; intros acc.
  - destruct acc. reflexivity.
  - unfold changesFor in *. simpl.
    destruct (l ev) as [id changes].
    destruct (i =? id)%Z.
    + rewrite (IH (mergeChanges acc changes)),
              (IH (mergeChanges noChanges changes)).
      rewrite merge_noChanges_l, merge_assoc. reflexivity.
    + apply IH.
Qed.

Lemma changesFor_covered (i : Z) (listeners : list Listener)
    (ev1 ev2 : PointerEvent.t) (a1 a2 : Changes.t) :
  Forall steady listeners ->
  coveredBy a1 a2 ->
  coveredBy (changesFor i listeners ev1 a1) (changesFor i listeners ev2 a2).
Proof.
  intros Hs. revert a1 a2.
  induction Hs as [|l ls Hl Hs IH]; intros a1 a2 Ha.
  - exact Ha.
  - unfold changesFor in *. simpl.
    destruct (Hl ev1 ev2) as [Hid Hcov].
    destruct (l ev1) as [i1 c1]. destruct (l ev2) as [i2 c2].
    simpl in Hid, Hcov. subst i2.
    destruct (i =? i1)%Z.
    + apply IH. apply covered_merge; assumption.
    + apply IH. exact Ha.
Qed.

Lemma noChanges_covered (c : Changes.t) : coveredBy noChanges c.
Proof. repeat split; intros H; elim H; reflexivity. Qed.

(** X12.  Whatever gestures are in progress, that is, whatever listeners
    the presses of courts, zones and resize handles have registered and
    no release has removed yet, two pointer moves in a row leave the
    elements as the second one alone would have: every gesture is
    recomputed from its press-time snapshot, and earlier pointer positions
    leave no trace. *)
Theorem pointer_moves_do_not_accumulate (listeners : list Listener)
    (ev1 ev2 : PointerEvent.t) (els : list Element.t) :
  Forall registered listeners ->
  runListeners listeners ev2 (runListeners listeners ev1 els) =
  runListeners listeners ev2 els.
Proof.
  intros Hreg.
  assert (Hs : Forall steady listeners).
  { apply Forall_forall. intros l Hin. apply registered_steady.
    exact (proj1 (Forall_forall _ _) Hreg l Hin). }
  rewrite !runListeners_map, map_map. apply map_ext. intros el.
  rewrite <- (spread_noChanges el) at 1 2.
  rewrite !onElement_id.
  rewrite (changesFor_acc _ _ ev2 (changesFor _ _ ev1 noChanges)).
  rewrite merge_covered; [reflexivity|].
  apply changesFor_covered; [exact Hs | apply noChanges_covered].
Qed.

End PointerListeners.

(** [pointer_moves_do_not_accumulate] on [sampleListeners], the drag and
    the resize of [sampleZone 5] both in progress: a move to (30, 10) after
    a move to (500, 400). *)
Lemma pointer_moves_do_not_accumulate_witness :
  List.length sampleListeners = 2%nat /\
  Forall registered sampleListeners /\
  runListeners sampleListeners (PointerEvent.make 30 10)
    (runListeners sampleListeners (PointerEvent.make 500 400) [sampleZone 5]) =
  runListeners sampleListeners (PointerEvent.make 30 10) [sampleZone 5].
Proof.
  assert (Hreg : Forall registered sampleListeners).
  { apply Forall_cons.
    - right. left.
      exists design, (sampleZone 5), 1%R, (PointerEvent.make 0 0). reflexivity.
    - apply Forall_cons; [|apply Forall_nil].
      right. right.
      exists (sampleZone 5), 1%R, (PointerEvent.make 0 0), "se"%string.
      reflexivity. }
  split; [reflexivity|]. split; [exact Hreg|].
  exact (pointer_moves_do_not_accumulate sampleListeners
           (PointerEvent.make 500 400) (PointerEvent.make 30 10)
           [sampleZone 5] Hreg).
Defined.

(** ** Labels, deletions and the locked layout *)

Section LayoutOperations.
Variable DateParse : string -> option Z.
Local Open Scope Z_scope.

Lemma court_labels_updated (f : Element.t -> Element.t) (l : list Element.t) :
  (forall el, Element.type (f el) = Element.type el /\
              Element.label (f el) = Element.label el) ->
  map Element.label (filter (fun e => isCourt (Element.type e)) (map f l)) =
  map Element.label (filter (fun e => isCourt (Element.type e)) l).
Proof.
  intros Hf. induction l as [|a l IH]; simpl; trivial.
  destruct (Hf a) as [Ht Hl]. rewrite Ht.
  destruct (isCourt (Element.type a)); simpl; rewrite IH, ?Hl; reflexivity.
Qed.

Lemma run_labels (w h : R) (evs : list Event) (st : AppState) :
  run DateParse w h evs st ->
  withoutDeletion evs ->
  let labels :=
    map Element.label (filter (fun e => isCourt (Element.type e)) (elements st)) in
  labels = map (fun k => Some (Z.of_nat k)) (seq 1 (List.length labels)).
Proof.
  induction 1 as [|evs st ev Hrun IH Hen]; intros Hno; [reflexivity|].
  apply Forall_app in Hno. destruct Hno as [Hevs Hev].
  specialize (IH Hevs). cbv zeta in IH |- *.
  destruct (dispatch_layout_cases DateParse st ev)
    as [E | [[f [Hf E]] | [[id [E _]] | [[_ E] | [n [E [_ Hnew]]]]]]].
  - rewrite E. exact IH.
  - rewrite E. rewrite court_labels_updated; [exact IH|].
    intros el. destruct (Hf el) as [-> | [-> | [l [e [_ ->]]]]];
      split; reflexivity.
  - subst ev. inversion Hev as [|? ? Hd _]. destruct Hd.
  - rewrite E. reflexivity.
  - rewrite E, filter_app, map_app.
    destruct Hnew as [[color [now [r1 [r2 [_ [Ht [_ [_ [Hl _]]]]]]]]]
                     | [now [_ [Ht _]]]];
      simpl; rewrite Ht; simpl.
    + rewrite length_app. simpl List.length.
      rewrite seq_app, map_app. simpl.
      rewrite <- IH. f_equal. rewrite Hl, length_map.
      f_equal. f_equal. lia.
    + rewrite app_nil_r. exact IH.
Qed.

Lemma count_up_NoDup (n : nat) :
  NoDup (map (fun k => Some (Z.of_nat k)) (seq 1 n)).
Proof.
  generalize 1%nat as s. induction n as [|n IH]; intros s; simpl.
  - constructor.
  - constructor; [|apply IH].
    intros H. apply in_map_iff in H. destruct H as [k [Hk Hin]].
    apply in_seq in Hin. injection Hk as Hk. lia.
Qed.

(** X19.  As long as no element is deleted, the courts of the layout are
    labelled 1, 2, 3, ... in the order of their creation (clearing the
    layout starts again from 1); in particular no two courts carry the same
    label. *)
Theorem labels_count_up_without_deletion (w h : R) (evs : list Event)
    (st : AppState) :
  run DateParse w h evs st ->
  withoutDeletion evs ->
  let labels :=
    map Element.label (filter (fun e => isCourt (Element.type e)) (elements st)) in
  labels = map (fun k => Some (Z.of_nat k)) (seq 1 (List.length labels)) /\
  NoDup labels.
Proof.
  intros Hrun Hno labels.
  pose proof (run_labels w h evs st Hrun Hno) as H. cbv zeta in H. fold labels in H.
  split; [exact H|]. rewrite H. apply count_up_NoDup.
Qed.

Lemma filter_twice_same {A : Type} (p : A -> bool) (l : list A) :
  filter p (filter p l) = filter p l.
Proof.
  induction l as [|a l IH]; simpl; trivial.
  destruct (p a) eqn:E; simpl; rewrite ?E, IH; reflexivity.
Qed.

Lemma filter_all {A : Type} (p : A -> bool) (l : list A) :
  (forall a, In a l -> p a = true) -> filter p l = l.
Proof.
  induction l as [|a l IH]; simpl; intros H; trivial.
  rewrite (H a (or_introl eq_refl)), IH; trivial.
  intros b Hb. apply H. right. exact Hb.
Qed.

(** X15.  [deleteElement] removes every element that carries the
    identifier and keeps the others; it clears the selection and leaves
    the reservations alone; deleting again changes nothing more, and an
    identifier that no element carries leaves the layout as it is. *)
Theorem delete_removes_the_bearers (id : Z) (st : AppState) :
  (forall el, In el (elements (deleteElement id st)) <->
              In el (elements st) /\ Element.id el <> id) /\
  deleteElement id (deleteElement id st) = deleteElement id st /\
  ((forall el, In el (elements st) -> Element.id el <> id) ->
   elements (deleteElement id st) = elements st) /\
  reservations (deleteElement id st) = reservations st /\
  selectedId (deleteElement id st) = None.
Proof.
  split; [|split; [|split; [|split; reflexivity]]].
  - intros el. simpl. rewrite filter_In, negb_true_iff, Z.eqb_neq. reflexivity.
  - unfold deleteElement, setSelectedId, setElements. simpl.
    rewrite filter_twice_same. reflexivity.
  - intros H. simpl. apply filter_all. intros el Hin.
    apply negb_true_iff, Z.eqb_neq, H, Hin.
Qed.

(** X16.  The confirmed cancellation removes every reservation that
    carries the identifier and keeps the others; it leaves the layout
    alone; cancelling again changes nothing more, and an identifier that
    no reservation carries leaves the store as it is. *)
Theorem cancel_removes_the_bearers (resId : Z) (st : AppState) :
  (forall r, In r (reservations (handleDeleteReservation resId st)) <->
             In r (reservations st) /\ Reservation.id r <> resId) /\
  handleDeleteReservation resId (handleDeleteReservation resId st) =
    handleDeleteReservation resId st /\
  ((forall r, In r (reservations st) -> Reservation.id r <> resId) ->
   reservations (handleDeleteReservation resId st) = reservations st) /\
  elements (handleDeleteReservation resId st) = elements st.
Proof.
  split; [|split; [|split; [|reflexivity]]].
  - intros r. simpl. rewrite filter_In, negb_true_iff, Z.eqb_neq. reflexivity.
  - unfold handleDeleteReservation, setReservations. simpl.
    rewrite filter_twice_same. reflexivity.
  - intros H. simpl. apply filter_all. intros r Hin.
    apply negb_true_iff, Z.eqb_neq, H, Hin.
Qed.

(** X11.  [updateElement] keeps the number, the order, the identifiers,
    the types, the labels and the rotations of the elements; it leaves
    every element with another identifier as it is, and an identifier that
    no element carries leaves the layout as it is. *)
Theorem update_touches_only_its_id (id : Z) (changes : Changes.t)
    (st : AppState) :
  map Element.id (elements (updateElement id changes st)) =
    map Element.id (elements st) /\
  map Element.type (elements (updateElement id changes st)) =
    map Element.type (elements st) /\
  map Element.label (elements (updateElement id changes st)) =
    map Element.label (elements st) /\
  map Element.rotation (elements (updateElement id changes st)) =
    map Element.rotation (elements st) /\
  (forall n el, nth_error (elements st) n = Some el -> Element.id el <> id ->
     nth_error (elements (updateElement id changes st)) n = Some el) /\
  ((forall el, In el (elements st) -> Element.id el <> id) ->
   elements (updateElement id changes st) = elements st).
Proof.
  unfold updateElement. simpl.
  repeat split.
  - rewrite map_map. apply map_ext. intros el.
    destruct (Element.id el =? id); reflexivity.
  - rewrite map_map. apply map_ext. intros el.
    destruct (Element.id el =? id); reflexivity.
  - rewrite map_map. apply map_ext. intros el.
    destruct (Element.id el =? id); reflexivity.
  - rewrite map_map. apply map_ext. intros el.
    destruct (Element.id el =? id); reflexivity.
  - intros n el Hn Hid. rewrite nth_error_map, Hn. simpl.
    apply Z.eqb_neq in Hid. rewrite Hid. reflexivity.
  - intros H. rewrite <- (map_id (elements st)) at 2.
    apply map_ext_in. intros el Hin.
    rewrite (proj2 (Z.eqb_neq _ _) (H el Hin)). reflexivity.
Qed.

(** X22.  Outside design mode, and with no gesture in progress, no event
    that the interface offers changes the layout or starts a gesture. *)
Theorem layout_is_locked_outside_design (st : AppState) (ev : Event) :
  mode st <> design ->
  pointerListener st = None ->
  enabled st ev ->
  elements (dispatch DateParse st ev) = elements st /\
  pointerListener (dispatch DateParse st ev) = None.
Proof.
  intros Hmode Hl Hen.
  assert (Hnd : negb (isDesign (mode st)) = true).
  { destruct (mode st); [elim Hmode; reflexivity | reflexivity | reflexivity]. }
  destruct ev; simpl in Hen |- *;
    try (elim Hmode; apply Hen);
    try (split; [reflexivity | exact Hl]).
  - unfold PadelCourt.handleDragStart. rewrite Hnd. split; [reflexivity | exact Hl].
  - unfold GenericZone.handleDragStart. rewrite Hnd.
    split; [reflexivity | exact Hl].
  - rewrite Hl. split; [reflexivity | exact Hl].
  - split; reflexivity.
  - unfold submitReservation.
    destruct (managingState st) as [c|]; [|split; [reflexivity | exact Hl]].
    destruct (formSubmit DateParse c _ f now) as [[m|r]|];
      split; try reflexivity; exact Hl.
Qed.
End LayoutOperations.

Lemma sampleLabelling_runs :
  run epochDayParse 800 600 sampleLabelling (afterSession sampleLabelling).
Proof.
  apply run_of_enabled. simpl.
  repeat split; try exact (proj1 half_is_a_draw); exact (proj2 half_is_a_draw).
Qed.

(** [labels_count_up_without_deletion] on the three courts of
    [sampleLabelling]. *)
Lemma labels_count_up_without_deletion_witness :
  let st := afterSession sampleLabelling in
  let labels :=
    map Element.label (filter (fun e => isCourt (Element.type e)) (elements st)) in
  withoutDeletion sampleLabelling /\
  labels = [Some 1%Z; Some 2%Z; Some 3%Z] /\
  labels = map (fun k => Some (Z.of_nat k)) (seq 1 (List.length labels)) /\
  NoDup labels.
Proof.
  intros st labels.
  assert (Hno : withoutDeletion sampleLabelling) by (repeat constructor).
  split; [exact Hno|]. split; [reflexivity|].
  exact (labels_count_up_without_deletion epochDayParse 800 600 sampleLabelling
           st sampleLabelling_runs Hno).
Defined.

(** [layout_is_locked_outside_design] on [sampleManaging]: a press on the
    court in manage mode. *)
Lemma layout_is_locked_outside_design_witness :
  let ev := CourtPointerDown (sampleCourt 1 1) (PointerEvent.make 10 10) in
  enabled sampleManaging ev /\
  elements (dispatch epochDayParse sampleManaging ev) = elements sampleManaging /\
  pointerListener (dispatch epochDayParse sampleManaging ev) = None.
Proof.
  intros ev.
  assert (Hen : enabled sampleManaging ev).
  { split; [left; reflexivity|]. split; [reflexivity | discriminate]. }
  split; [exact Hen|].
  apply (layout_is_locked_outside_design epochDayParse sampleManaging ev);
    [discriminate | reflexivity | exact Hen].
Defined.

(** ** More on the gestures and the zoom *)

Section GestureTheorems.
Local Open Scope R_scope.

(** X17.  A move event at the very position of the press leaves a zone
    whose sizes are at least [MIN_SIZE_PX] exactly as it is, whatever the
    handle, the rotation and the zoom. *)
Theorem pressing_a_handle_changes_nothing (data : Element.t) (zoom : R)
    (e : PointerEvent.t) (direction : string) (startW startH : R) :
  Element.width data = Some startW ->
  Element.height data = Some startH ->
  MIN_SIZE_PX <= startW ->
  MIN_SIZE_PX <= startH ->
  exists l,
    GenericZone.handleResizeStart data zoom e direction = Some l /\
    l e = (Element.id data,
           {| Changes.x := Some (Element.x data);
              Changes.y := Some (Element.y data);
              Changes.width := Some startW;
              Changes.height := Some startH |}) /\
    spread data (snd (l e)) = data.
Proof.
  intros Hw Hh Bw Bh.
  assert (Hl : exists l,
            GenericZone.handleResizeStart data zoom e direction = Some l /\
            l e = (Element.id data,
                   {| Changes.x := Some (Element.x data);
                      Changes.y := Some (Element.y data);
                      Changes.width := Some startW;
                      Changes.height := Some startH |})).
  { unfold GenericZone.handleResizeStart. rewrite Hw, Hh.
    eexists. split; [reflexivity|]. cbv beta zeta.
    set (t := Element.rotation data * PI / 180).
    set (cx := PointerEvent.clientX e). set (cy := PointerEvent.clientY e).
    assert (Hu : (cx - cx) / zoom * cos t + (cy - cy) / zoom * sin t = 0)
      by (unfold Rdiv; ring).
    assert (Hv : (cx - cx) / zoom * - sin t + (cy - cy) / zoom * cos t = 0)
      by (unfold Rdiv; ring).
    rewrite Hu, Hv, Rplus_0_r, Rplus_0_r, Rminus_0_r, Rminus_0_r.
    rewrite (Rmax_right _ _ Bw), (Rmax_right _ _ Bh).
    destruct (includes "e" direction), (includes "w" direction),
             (includes "s" direction), (includes "n" direction);
      cbv iota beta; f_equal; f_equal; f_equal; unfold Rdiv; ring. }
  destruct Hl as [l [H1 H2]]. exists l. split; [exact H1|]. split; [exact H2|].
  rewrite H2. destruct data as [i ty x y r c lb wd ht]. simpl in *.
  subst wd ht. reflexivity.
Qed.

(** [pressing_a_handle_changes_nothing] on [sampleZone 5] and its
    north-west handle at zoom 2. *)
Lemma pressing_a_handle_changes_nothing_witness :
  let e := PointerEvent.make 40 60 in
  exists l,
    GenericZone.handleResizeStart (sampleZone 5) 2 e "nw" = Some l /\
    l e = (5%Z,
           {| Changes.x := Some 350; Changes.y := Some 275;
              Changes.width := Some 150; Changes.height := Some 75 |}) /\
    spread (sampleZone 5) (snd (l e)) = sampleZone 5.
Proof.
  assert (Bw : MIN_SIZE_PX <= 150) by (unfold MIN_SIZE_PX; lra).
  assert (Bh : MIN_SIZE_PX <= 75) by (unfold MIN_SIZE_PX; lra).
  exact (pressing_a_handle_changes_nothing (sampleZone 5) 2
           (PointerEvent.make 40 60) "nw" 150 75 eq_refl eq_refl Bw Bh).
Defined.

(** X21.  [addCourt] appends the new court to the layout and places it
    within 20 pixels, on each axis, of the position that centres a court in
    the container; the elements already there are not touched. *)
Theorem new_court_lands_near_the_centre (color : string) (now : Z)
    (rnd1 rnd2 : R) (st : AppState) :
  0 <= rnd1 < 1 ->
  0 <= rnd2 < 1 ->
  exists el,
    elements (addCourt color now rnd1 rnd2 st) = elements st ++ [el] /\
    Element.type el = Court /\
    (let cx := fst (containerSize st) / 2 - COURT_WIDTH_PX / 2 in
     cx - 20 <= Element.x el < cx + 20) /\
    (let cy := snd (containerSize st) / 2 - COURT_HEIGHT_PX / 2 in
     cy - 20 <= Element.y el < cy + 20).
Proof.
  intros H1 H2. eexists. split; [reflexivity|]. split; [reflexivity|].
  simpl. split; lra.
Qed.

(** [new_court_lands_near_the_centre] on the empty layout with both draws
    at one half. *)
Lemma new_court_lands_near_the_centre_witness :
  exists el,
    elements (addCourt COLORS.turf.blue 1 (1 / 2) (1 / 2) (initialState 800 600))
      = [] ++ [el] /\
    Element.type el = Court /\
    (let cx := 800 / 2 - COURT_WIDTH_PX / 2 in
     cx - 20 <= Element.x el < cx + 20) /\
    (let cy := 600 / 2 - COURT_HEIGHT_PX / 2 in
     cy - 20 <= Element.y el < cy + 20).
Proof.
  exact (new_court_lands_near_the_centre COLORS.turf.blue 1 (1 / 2) (1 / 2)
           (initialState 800 600) half_is_a_draw half_is_a_draw).
Defined.
End GestureTheorems.

Section ZoomTheorems.
Variable DateParse : string -> option Z.
Local Open Scope R_scope.

(** X20.  In every state that a run reaches the zoom lies between 0.5 and
    3.  Zooming in adds 0.1 but saturates at 3, zooming out subtracts 0.1
    but saturates at 0.5; neither ever leaves the interval. *)
Theorem zoom_stays_within_bounds (w h : R) (evs : list Event) (st : AppState) :
  run DateParse w h evs st ->
  0.5 <= zoom st <= 3 /\
  0.5 <= zoom (zoomIn st) <= 3 /\
  0.5 <= zoom (zoomOut st) <= 3 /\
  (zoom st <= 2.9 -> zoom (zoomIn st) = zoom st + 0.1) /\
  (2.9 <= zoom st -> zoom (zoomIn st) = 3) /\
  (0.6 <= zoom st -> zoom (zoomOut st) = zoom st - 0.1) /\
  (zoom st <= 0.6 -> zoom (zoomOut st) = 0.5).
Proof.
  intros Hrun.
  destruct (run_invariant DateParse w h evs st Hrun) as [_ [_ Hz]].
  simpl. unfold Rmin, Rmax.
  destruct (Rle_dec (zoom st + 0.1) 3), (Rle_dec (zoom st - 0.1) 0.5);
    repeat split; intros; lra.
Qed.
End ZoomTheorems.

(** [zoom_stays_within_bounds] on [sampleDesign], which zooms in once. *)
Lemma zoom_stays_within_bounds_witness :
  let st := afterSession sampleDesign in
  (0.5 <= zoom st <= 3 /\
   0.5 <= zoom (zoomIn st) <= 3 /\
   0.5 <= zoom (zoomOut st) <= 3 /\
   (zoom st <= 2.9 -> zoom (zoomIn st) = zoom st + 0.1) /\
   (2.9 <= zoom st -> zoom (zoomIn st) = 3) /\
   (0.6 <= zoom st -> zoom (zoomOut st) = zoom st - 0.1) /\
   (zoom st <= 0.6 -> zoom (zoomOut st) = 0.5))%R.
Proof.
  exact (zoom_stays_within_bounds epochDayParse 800 600 sampleDesign
           (afterSession sampleDesign) sampleDesign_runs).
Defined.

Section DepositTheorems.
Variable DateParse : string -> option Z.

(** X23.  In every state that a run reaches, no stored reservation has an
    empty deposit: a deposit field left blank is stored as "0". *)
Theorem stored_deposit_is_never_empty (w h : R) (evs : list Event)
    (st : AppState) :
  run DateParse w h evs st ->
  forall r, In r (reservations st) -> Reservation.deposit r <> ""%string.
Proof.
  induction 1 as [|evs st ev Hrun IH Hen]; intros r Hin.
  - destruct Hin.
  - destruct (dispatch_store_cases DateParse st ev)
      as [E | [[resId [_ E]] | [c [f [now [nStart [_ [_ [_ [_ [_ E]]]]]]]]]]];
      rewrite E in Hin.
    + exact (IH r Hin).
    + apply filter_In in Hin. exact (IH r (proj1 Hin)).
    + apply in_app_or in Hin. destruct Hin as [Hin | [<- | []]].
      * exact (IH r Hin).
      * simpl. destruct (blank (Form.deposit f)) eqn:Eb.
        -- discriminate.
        -- apply blank_false_iff. exact Eb.
Qed.
End DepositTheorems.

(** [stored_deposit_is_never_empty] on [sampleSession] with a blank
    deposit field. *)
Lemma stored_deposit_is_never_empty_witness :
  let st := afterSession (sampleSession "Eva" "") in
  map Reservation.deposit (reservations st) = ["0"%string] /\
  forall r, In r (reservations st) -> Reservation.deposit r <> ""%string.
Proof.
  intros st. split; [reflexivity|].
  exact (stored_deposit_is_never_empty epochDayParse 800 600
           (sampleSession "Eva" "") st (sampleSession_runs "Eva" "")).
Defined.
